(** * A shallow embedding of the RAG service's request handlers

    The development follows the Python sources
    - [app/core/models.py]         (the memoized index accessor),
    - [app/schemas/requests.py]    (request validation),
    - [app/schemas/responses.py]   (response records),
    - [app/routers/search.py]      (query routing and response shaping),
    - [app/routers/ingestion.py]   (pipeline construction and indexing).

    The embedding/LLM framework, the vector database and the document
    loader are external collaborators: they are represented by an
    oracle record ([World]) whose fields answer each external call with
    either a value or a raised exception. *)

From Stdlib Require Import PrimFloat.
From Stdlib Require Import ZArith Lia Bool List Ascii String.
From stdpp Require Import gmap strings.

Local Open Scope string_scope.
Local Open Scope Z_scope.

(** ** Python strings

    A Python [str] is a sequence of code points.  The model uses Rocq's
    [string], whose characters are the 256 code points of Latin-1; on
    that range [isspace], [lower_char] below agree with CPython's
    [str.isspace] and [str.lower]. *)

Module PyStr.

Definition code (c : ascii) : N := N_of_ascii c.

(** [str.isspace] on one code point: TAB..CR, FS..US, SPACE, NEL, NBSP. *)
Definition isspace (c : ascii) : bool :=
  let n := code c in
  ((9 <=? n) && (n <=? 13) || (28 <=? n) && (n <=? 32)
   || (n =? 133) || (n =? 160))%N.

(** [str.lower] on one code point: A..Z and the Latin-1 capitals
    (0xC0..0xDE except the multiplication sign 0xD7) move up by 32. *)
Definition lower_char (c : ascii) : ascii :=
  let n := code c in
  if ((65 <=? n) && (n <=? 90)
      || (192 <=? n) && (n <=? 222) && negb (n =? 215))%N
  then ascii_of_N (n + 32) else c.

Fixpoint lower (s : string) : string :=
  match s with
  | EmptyString => EmptyString
  | String c s' => String (lower_char c) (lower s')
  end.

Fixpoint lstrip (s : string) : string :=
  match s with
  | EmptyString => EmptyString
  | String c s' => if isspace c then lstrip s' else s
  end.

Fixpoint rstrip (s : string) : string :=
  match s with
  | EmptyString => EmptyString
  | String c s' =>
      match rstrip s' with
      | EmptyString => if isspace c then EmptyString else String c EmptyString
      | r => String c r
      end
  end.

(** [s.strip()] with no argument. *)
Definition strip (s : string) : string := rstrip (lstrip s).

(** [s.startswith(p)]. *)
Definition startswith (s p : string) : bool := String.prefix p s.

(** Truth value of a string: [bool(s)]. *)
Definition truthy (s : string) : bool :=
  match s with EmptyString => false | String _ _ => true end.

(** Every character is whitespace (true of the empty string too). *)
Fixpoint all_space (s : string) : bool :=
  match s with
  | EmptyString => true
  | String c s' => isspace c && all_space s'
  end.

(** Equality up to letter case. *)
Definition ci_equal (a b : string) : bool := String.eqb (lower a) (lower b).

(** [s], trimmed and compared without regard to case, begins with [p]. *)
Definition ci_begins_with (s p : string) : bool :=
  String.prefix (lower p) (lower (strip s)).

End PyStr.

(** ** Python exceptions and handler outcomes *)

(** An exception object: its class name and [str(e)]. *)
Record exn := Exn { exn_class : string; exn_str : string }.

(** Reading a local variable that no assignment has reached yet (the
    message is the one of CPython 3.11 and later). *)
Definition UnboundLocalError (var : string) : exn :=
  Exn "UnboundLocalError"
      ("cannot access local variable '" ++ var
       ++ "' where it is not associated with a value").

(** Result of running Python code: a value, or a raised exception. *)
Inductive outcome (A : Type) : Type :=
| Returned (a : A)
| Raised (e : exn).
Arguments Returned {A} a.
Arguments Raised {A} e.

(** What an endpoint hands back to the web framework: a response body,
    an [HTTPException] raised by the handler, or the framework's own
    rejection of a body that fails the request schema (status 422). *)
Inductive http (A : Type) : Type :=
| Ok200 (body : A)
| HTTPException (status_code : Z) (detail : string)
| RequestValidationError.
Arguments Ok200 {A} body.
Arguments HTTPException {A} status_code detail.
Arguments RequestValidationError {A}.

(** ** Objects of the external framework, as far as the handlers see them *)

(** Object identity: every constructed object gets a fresh reference. *)
Definition ref := nat.

Record DuckDBVectorStore := { store_ref : ref; store_path : string }.

Record VectorStoreIndex :=
  { index_ref : ref; index_store : DuckDBVectorStore }.

(** A retrieved node as [search] inspects it: its [text], which every
    node is taken to have, and the two attributes the handler tests
    with [hasattr].  [nws_metadata = None] means the object has no
    [metadata] attribute; [nws_score = None] means it has no [score]
    attribute, [Some None] that the attribute holds [None]. *)
Record NodeWithScore := {
  nws_text : string;
  nws_metadata : option (gmap string string);
  nws_score : option (option PrimFloat.float);
}.

(** The object returned by [query_engine.query]: [str(response)] and,
    when the attribute exists, [response.source_nodes]. *)
Record Response := {
  response_str : string;
  response_source_nodes : option (list NodeWithScore);
}.

Record ToolMetadata := { tool_name : string; tool_description : string }.

(** [index.as_query_engine(similarity_top_k=...)] *)
Record BaseQueryEngine := as_query_engine {
  engine_index : VectorStoreIndex;
  engine_similarity_top_k : Z;
}.

Record QueryEngineTool := {
  tool_query_engine : BaseQueryEngine;
  tool_metadata : ToolMetadata;
}.

Inductive QueryEngine : Type :=
| SimpleQueryEngine (engine : BaseQueryEngine)
| SubQuestionQueryEngine
    (query_engine_tools : list QueryEngineTool)
    (question_gen_prompt : string) (use_async : bool).

(** Ingestion side. *)
Record Document := { doc_text : string; doc_metadata : gmap string string }.
Record Node := { node_text : string; node_metadata : gmap string string }.

Inductive Reader := PyMuPDFReader | DefaultReader.

Inductive Transformation : Type :=
| SentenceSplitter (chunk_size chunk_overlap : Z)
| TitleExtractor (nodes : Z)
| QuestionsAnsweredExtractor (questions : Z)
| KeywordExtractor (keywords : Z)
| SummaryExtractor (summaries : list string) (nodes num_workers : Z).

(** ** Configuration ([app/core/config.py]) *)

Record Config := { PERSIST_DIR : string; DB_PATH : string; DATA_DIR : string }.

(** The values used when the environment sets nothing. *)
Definition default_config : Config :=
  {| PERSIST_DIR := "./persist/"; DB_PATH := "pg.duckdb"; DATA_DIR := "./policies" |}.

(** ** The external world

    One field per external call made by the handlers.  [None] in an
    [option exn] answer means the call returned normally. *)
Record World := {
  w_config : Config;
  (** [DuckDBVectorStore.from_local(path)] *)
  w_from_local : string -> option exn;
  (** [VectorStoreIndex.from_vector_store(vector_store)] *)
  w_from_vector_store : DuckDBVectorStore -> option exn;
  (** the constant [DEFAULT_SUB_QUESTION_PROMPT_TMPL] *)
  w_DEFAULT_SUB_QUESTION_PROMPT_TMPL : string;
  (** construction of the query engine ([as_query_engine],
      [LLMQuestionGenerator.from_defaults], [SubQuestionQueryEngine.from_defaults]) *)
  w_engine : QueryEngine -> option exn;
  (** [query_engine.query(query)] *)
  w_query : QueryEngine -> string -> outcome Response;
  (** [SimpleDirectoryReader(input_dir, file_extractor, recursive).load_data()] *)
  w_load_data : string -> gmap string Reader -> bool -> outcome (list Document);
  (** [SentenceSplitter(chunk_size, chunk_overlap)], which checks its arguments *)
  w_SentenceSplitter : Z -> Z -> option exn;
  (** [IngestionPipeline(transformations).run(documents, in_place, show_progress)] *)
  w_pipeline_run : list Transformation -> list Document -> outcome (list Node);
  (** [DuckDBVectorStore(DB_PATH, persist_dir)], [StorageContext.from_defaults]
      and [VectorStoreIndex(nodes, storage_context)] *)
  w_build_index : string -> string -> list Node -> option exn;
}.

(** The external calls, as recorded in the process log. *)
Inductive Call : Type :=
| CallFromLocal (path : string)
| CallFromVectorStore (vector_store : DuckDBVectorStore)
| CallEngine (engine : QueryEngine)
| CallQuery (engine : QueryEngine) (query : string)
| CallLoadData (input_dir : string) (file_extractor : gmap string Reader) (recursive : bool)
| CallSentenceSplitter (chunk_size chunk_overlap : Z)
| CallPipelineRun (transformations : list Transformation) (documents : list Document)
| CallBuildIndex (db_path persist_dir : string) (nodes : list Node).

(** ** Process state and the handler monad

    Both handlers are coroutines whose bodies contain no [await]: a
    request runs to completion before another one is served, so a
    handler is a function from the process state to an outcome and a
    new state. *)

(** The module-level globals of [app/core/models.py]. *)
Record Models := {
  _vector_store : option DuckDBVectorStore;
  _index : option VectorStoreIndex;
}.

Record Proc := {
  models : Models;
  next_ref : ref;
  calls : list Call;
}.

(** The state of a process that has just imported [app.core.models]. *)
Definition fresh_proc : Proc :=
  {| models := {| _vector_store := None; _index := None |};
     next_ref := 0%nat; calls := [] |}.

Definition M (A : Type) : Type := Proc -> outcome A * Proc.

Definition ret {A} (a : A) : M A := fun p => (Returned a, p).

Definition raise {A} (e : exn) : M A := fun p => (Raised e, p).

Definition bind {A B} (m : M A) (k : A -> M B) : M B :=
  fun p =>
    match m p with
    | (Returned a, p') => k a p'
    | (Raised e, p') => (Raised e, p')
    end.

Declare Scope py_scope.
Delimit Scope py_scope with py.
Notation "x <- m ;; k" := (bind m (fun x => k))
  (at level 100, m at next level, right associativity) : py_scope.
Notation "m ;;; k" := (bind m (fun _ => k))
  (at level 100, right associativity) : py_scope.
Local Open Scope py_scope.

(** Turn an oracle answer into a step of the monad. *)
Definition check (r : option exn) : M unit :=
  match r with
  | None => ret tt
  | Some e => raise e
  end.

Definition lift {A} (r : outcome A) : M A := fun p => (r, p).

Definition log (c : Call) : M unit :=
  fun p => (Returned tt,
            {| models := models p; next_ref := next_ref p; calls := calls p ++ [c] |}).

Definition new_ref : M ref :=
  fun p => (Returned (next_ref p),
            {| models := models p; next_ref := S (next_ref p); calls := calls p |}).

Definition read_models : M Models := fun p => (Returned (models p), p).

Definition write_models (m : Models) : M unit :=
  fun p => (Returned tt,
            {| models := m; next_ref := next_ref p; calls := calls p |}).

(** [try: body except Exception as e: raise HTTPException(500, prefix + str(e))]
    at the top of a handler. *)
Definition handler {A} (prefix : string) (body : M A) : Proc -> http A * Proc :=
  fun p =>
    match body p with
    | (Returned a, p') => (Ok200 a, p')
    | (Raised e, p') => (HTTPException 500 (prefix ++ exn_str e), p')
    end.

(** ** The index accessor ([app/core/models.py]) *)

Definition DuckDBVectorStore_from_local (w : World) (path : string)
  : M DuckDBVectorStore :=
  log (CallFromLocal path);;;
  check (w_from_local w path);;;
  r <- new_ref;;
  ret {| store_ref := r; store_path := path |}.

Definition VectorStoreIndex_from_vector_store (w : World) (vs : DuckDBVectorStore)
  : M VectorStoreIndex :=
  log (CallFromVectorStore vs);;;
  check (w_from_vector_store w vs);;;
  r <- new_ref;;
  ret {| index_ref := r; index_store := vs |}.

Definition get_vector_store (w : World) : M DuckDBVectorStore :=
  g <- read_models;;
  match _vector_store g with
  | None =>
      vs <- DuckDBVectorStore_from_local w
              (PERSIST_DIR (w_config w) ++ DB_PATH (w_config w));;
      g <- read_models;;
      write_models {| _vector_store := Some vs; _index := _index g |};;;
      ret vs
  | Some vs => ret vs
  end.

Definition get_index (w : World) : M VectorStoreIndex :=
  g <- read_models;;
  match _index g with
  | None =>
      vector_store <- get_vector_store w;;
      ix <- VectorStoreIndex_from_vector_store w vector_store;;
      g <- read_models;;
      write_models {| _vector_store := _vector_store g; _index := Some ix |};;;
      ret ix
  | Some ix => ret ix
  end.

Definition reset_models : M unit :=
  write_models {| _vector_store := None; _index := None |}.

(** ** Request and response schemas ([app/schemas]) *)

Record IngestionRequest := {
  input_dir : string;
  chunk_size : Z;
  chunk_overlap : Z;
  extract_title : bool;
  extract_qa : bool;
  extract_keywords : bool;
  extract_summary : bool;
}.

Record SearchRequest := {
  query : string;
  similarity_top_k : Z;
  use_sub_questions : bool;
}.

(** A JSON request body before validation: a field that the body omits
    is [None] and takes the schema's default. *)
Record IngestionBody := {
  body_input_dir : option string;
  body_chunk_size : option Z;
  body_chunk_overlap : option Z;
  body_extract_title : option bool;
  body_extract_qa : option bool;
  body_extract_keywords : option bool;
  body_extract_summary : option bool;
}.

Record SearchBody := {
  body_query : option string;
  body_similarity_top_k : option Z;
  body_use_sub_questions : option bool;
}.

(** [Field(ge=lo, le=hi)] *)
Definition within (lo hi v : Z) : bool := (lo <=? v) && (v <=? hi).

(** Validation of a body against [IngestionRequest]; [None] is a
    validation error. *)
Definition validate_IngestionRequest (b : IngestionBody) : option IngestionRequest :=
  let r := {| input_dir := default "./policies" (body_input_dir b);
              chunk_size := default 512 (body_chunk_size b);
              chunk_overlap := default 128 (body_chunk_overlap b);
              extract_title := default true (body_extract_title b);
              extract_qa := default true (body_extract_qa b);
              extract_keywords := default true (body_extract_keywords b);
              extract_summary := default true (body_extract_summary b) |} in
  if within 100 2000 (chunk_size r) && within 0 500 (chunk_overlap r)
  then Some r else None.

(** Validation of a body against [SearchRequest]: [query] has no default. *)
Definition validate_SearchRequest (b : SearchBody) : option SearchRequest :=
  match body_query b with
  | None => None
  | Some q =>
      let r := {| query := q;
                  similarity_top_k := default 10 (body_similarity_top_k b);
                  use_sub_questions := default false (body_use_sub_questions b) |} in
      if within 1 50 (similarity_top_k r) then Some r else None
  end.

(** Responses.  The two clock-derived fields ([processing_time_seconds],
    [timestamp]) carry wall-clock readings and are left out. *)
Record IngestionResponse := {
  success : bool;
  message : string;
  documents_processed : Z;
  nodes_created : Z;
}.

Record SearchResult := {
  file_name : option string;
  summary : option string;
  score : option PrimFloat.float;
}.

Record SearchResponse := {
  resp_query : string;
  answer : string;
  results : list SearchResult;
}.

(** ** The search endpoint ([app/routers/search.py]) *)

Import PyStr.

(** The replacement answer of the guardrail (line 80). *)
Definition FALLBACK_ANSWER : string :=
  "I couldn't find relevant information to answer your question. Please contact customer support for further assistance.".

Definition nl : string := String (ascii_of_nat 10) EmptyString.

(** The text put in front of [DEFAULT_SUB_QUESTION_PROMPT_TMPL] (lines 43-46). *)
Definition SUB_QUESTION_PROMPT_PREFIX : string :=
  nl ++ "                    Follow the example, but instead of giving a question, always prefix the question"
  ++ nl ++ "                    with: 'Answer in markdown. By first identifying and quoting the most relevant sources, '."
  ++ nl ++ "                    ".

(** The guardrail condition of line 78:
    [not answer or answer.strip() == "" or answer.strip().lower() == "empty response"]. *)
Definition is_empty_response (answer : string) : bool :=
  negb (truthy answer)
  || String.eqb (strip answer) ""
  || String.eqb (lower (strip answer)) "empty response".

Definition guardrail (answer : string) : string :=
  if is_empty_response answer then FALLBACK_ANSWER else answer.

(** The condition of line 86 under [not]:
    [node.text.lower().strip().startswith("sub question:")]. *)
Definition is_sub_question (node : NodeWithScore) : bool :=
  startswith (strip (lower (nws_text node))) "sub question:".

(** The two locals [file_name] and [summary] of [search]: [None] while
    no assignment has run, [Some v] once bound to the value [v] returned
    by [dict.get] (itself [None] when the key is missing). *)
Record Locals := {
  var_file_name : option (option string);
  var_summary : option (option string);
}.

Definition unbound : Locals := {| var_file_name := None; var_summary := None |}.

Definition read_local {A} (name : string) (v : option A) : outcome A :=
  match v with
  | Some x => Returned x
  | None => Raised (UnboundLocalError name)
  end.

(** [v if v else d] for a value that is [None] or a string. *)
Definition or_else (v : option string) (d : string) : string :=
  match v with
  | Some s => if truthy s then s else d
  | None => d
  end.

(** [node.score if hasattr(node, "score") else None] *)
Definition score_of (node : NodeWithScore) : option PrimFloat.float :=
  match nws_score node with
  | Some s => s
  | None => None
  end.

(** Lines 88-90: the assignments run only when the node has a
    [metadata] attribute; otherwise the locals keep what they held. *)
Definition assign_metadata (node : NodeWithScore) (l : Locals) : Locals :=
  match nws_metadata node with
  | Some md => {| var_file_name := Some (md !! "file_name");
                  var_summary := Some (md !! "document_title") |}
  | None => l
  end.

(** Lines 92-96: build one [SearchResult] from the locals and the node. *)
Definition make_result (node : NodeWithScore) (l : Locals) : outcome SearchResult :=
  match read_local "file_name" (var_file_name l) with
  | Raised e => Raised e
  | Returned fn =>
      match read_local "summary" (var_summary l) with
      | Raised e => Raised e
      | Returned sm =>
          Returned {| file_name := Some (or_else fn "Unknown");
                      summary := Some (or_else sm "No summary available");
                      score := score_of node |}
      end
  end.

(** [l.append(x)] *)
Definition append {A} (l : list A) (x : A) : list A := (l ++ [x])%list.

(** The loop of lines 85-97 over [response.source_nodes]. *)
Fixpoint source_loop (nodes : list NodeWithScore) (l : Locals)
    (results : list SearchResult) : outcome (list SearchResult) :=
  match nodes with
  | [] => Returned results
  | node :: rest =>
      if negb (is_sub_question node) then
        let l' := assign_metadata node l in
        match make_result node l' with
        | Raised e => Raised e
        | Returned result => source_loop rest l' (append results result)
        end
      else source_loop rest l results
  end.

(** Lines 83-97. *)
Definition extract_results (response : Response) : outcome (list SearchResult) :=
  match response_source_nodes response with
  | Some nodes => source_loop nodes unbound []
  | None => Returned []
  end.

Definition AIRLINE_TOOL : ToolMetadata :=
  {| tool_name := "airline_policy_documents";
     tool_description := "Airline policy documents for answering questions about airline policies and related topics." |}.

(** Lines 38-68: the engine chosen for the request. *)
Definition choose_engine (w : World) (request : SearchRequest)
    (index : VectorStoreIndex) : QueryEngine :=
  if use_sub_questions request then
    let engine := as_query_engine index (similarity_top_k request) in
    SubQuestionQueryEngine
      [ {| tool_query_engine := engine; tool_metadata := AIRLINE_TOOL |} ]
      (SUB_QUESTION_PROMPT_PREFIX ++ w_DEFAULT_SUB_QUESTION_PROMPT_TMPL w)
      false
  else SimpleQueryEngine (as_query_engine index (similarity_top_k request)).

Definition search_body (w : World) (request : SearchRequest) : M SearchResponse :=
  index <- get_index w;;
  let query_engine := choose_engine w request index in
  log (CallEngine query_engine);;;
  check (w_engine w query_engine);;;
  log (CallQuery query_engine (query request));;;
  response <- lift (w_query w query_engine (query request));;
  let answer := guardrail (response_str response) in
  results <- lift (extract_results response);;
  ret {| resp_query := query request; answer := answer; results := results |}.

Definition search (w : World) (request : SearchRequest)
  : Proc -> http SearchResponse * Proc :=
  handler "Search failed: " (search_body w request).

(** [POST /api/v1/search]: the body is validated before [search] runs. *)
Definition post_search (w : World) (b : SearchBody)
  : Proc -> http SearchResponse * Proc :=
  fun p =>
    match validate_SearchRequest b with
    | Some request => search w request p
    | None => (RequestValidationError, p)
    end.

(** ** The ingestion endpoint ([app/routers/ingestion.py]) *)

(** The [file_extractor] argument of line 50. *)
Definition FILE_EXTRACTOR : gmap string Reader := {[ "*.pdf" := PyMuPDFReader ]}.

(** Lines 66-81: the list starts empty, the splitter is appended, then
    one extractor per flag that is set. *)
Definition build_transformations (request : IngestionRequest) : list Transformation :=
  let text_splitter := SentenceSplitter (chunk_size request) (chunk_overlap request) in
  let transformations : list Transformation := [] in
  let transformations := append transformations text_splitter in
  let transformations :=
    if extract_title request
    then append transformations (TitleExtractor 5) else transformations in
  let transformations :=
    if extract_qa request
    then append transformations (QuestionsAnsweredExtractor 3) else transformations in
  let transformations :=
    if extract_keywords request
    then append transformations (KeywordExtractor 15) else transformations in
  let transformations :=
    if extract_summary request
    then append transformations (SummaryExtractor ["prev"; "self"] 5 5) else transformations in
  transformations.

Definition ingest_body (w : World) (request : IngestionRequest) : M IngestionResponse :=
  log (CallLoadData (input_dir request) FILE_EXTRACTOR true);;;
  documents <- lift (w_load_data w (input_dir request) FILE_EXTRACTOR true);;
  let documents_count := Z.of_nat (length documents) in
  log (CallSentenceSplitter (chunk_size request) (chunk_overlap request));;;
  check (w_SentenceSplitter w (chunk_size request) (chunk_overlap request));;;
  let transformations := build_transformations request in
  log (CallPipelineRun transformations documents);;;
  nodes <- lift (w_pipeline_run w transformations documents);;
  let nodes_count := Z.of_nat (length nodes) in
  log (CallBuildIndex (DB_PATH (w_config w)) (PERSIST_DIR (w_config w)) nodes);;;
  check (w_build_index w (DB_PATH (w_config w)) (PERSIST_DIR (w_config w)) nodes);;;
  reset_models;;;
  ret {| success := true;
         message := "Documents ingested and indexed successfully";
         documents_processed := documents_count;
         nodes_created := nodes_count |}.

Definition ingest_documents (w : World) (request : IngestionRequest)
  : Proc -> http IngestionResponse * Proc :=
  handler "Ingestion failed: " (ingest_body w request).

(** [POST /api/v1/ingest]: the body is validated before the handler runs. *)
Definition post_ingest (w : World) (b : IngestionBody)
  : Proc -> http IngestionResponse * Proc :=
  fun p =>
    match validate_IngestionRequest b with
    | Some request => ingest_documents w request p
    | None => (RequestValidationError, p)
    end.

(** ** The document loader's choice of reader *)

Module Loader.

(** Modelled from the spec: helper of [suffix] below, the part of [s]
    from its last dot on, if [s] has a dot. *)
Fixpoint from_last_dot (s : string) : option string :=
  match s with
  | EmptyString => None
  | String c s' =>
      match from_last_dot s' with
      | Some e => Some e
      | None => if Ascii.eqb c "."%char then Some s else None
      end
  end.

(** Modelled from the spec: the document loader is an external
    collaborator whose code is not part of the repository; only its
    "suffix-based dispatch contract" is given.  [suffix] is the file
    name's suffix as the path library defines it: the text from the
    last dot on, provided that dot is neither the first nor the last
    character of the name, and the empty string otherwise. *)
Definition suffix (name : string) : string :=
  match name with
  | EmptyString => EmptyString
  | String _ rest =>
      match from_last_dot rest with
      | Some e => if String.eqb e "." then EmptyString else e
      | None => EmptyString
      end
  end.

(** Modelled from the spec: suffix-based dispatch.  The loader looks
    the lower-cased suffix of the file up among the keys of the
    [file_extractor] mapping; a registered reader is used when the
    key is present, default extraction otherwise. *)
Definition reader_for (file_extractor : gmap string Reader) (name : string) : Reader :=
  match file_extractor !! lower (suffix name) with
  | Some reader => reader
  | None => DefaultReader
  end.

(** Modelled from the spec: a file is of type PDF when its lower-cased
    suffix is [.pdf]. *)
Definition is_pdf (name : string) : bool :=
  String.eqb (lower (suffix name)) ".pdf".

End Loader.

(** ** Where the vector store persists *)

Module Store.

(** The last character of [s] is a slash. *)
Fixpoint ends_with_slash (s : string) : bool :=
  match s with
  | EmptyString => false
  | String c EmptyString => Ascii.eqb c "/"%char
  | String _ s' => ends_with_slash s'
  end.

(** Modelled from the spec: the vector database is an external
    collaborator that "accepts a file-system persistence path".  The
    ingestion handler constructs it from a database file name and a
    directory ([DuckDBVectorStore(DB_PATH, persist_dir=PERSIST_DIR)]);
    the store then persists in the file of that name inside that
    directory, that is, at the path join of the two: an absolute file
    name stands for itself, and a separator is put between directory and
    name unless the directory is empty or already ends with one. *)
Definition written_path (persist_dir database_name : string) : string :=
  if startswith database_name "/" then database_name
  else if negb (truthy persist_dir) || ends_with_slash persist_dir
       then persist_dir ++ database_name
       else persist_dir ++ "/" ++ database_name.

(** The path [get_vector_store] hands to [from_local] (models.py line 20). *)
Definition opened_path (cfg : Config) : string :=
  PERSIST_DIR cfg ++ DB_PATH cfg.

End Store.

(** ** Notions used to state the properties *)

(** The answer is degenerate: empty, whitespace only, or equal to
    "empty response" once trimmed and compared without regard to case. *)
Definition degenerate_answer (raw : string) : bool :=
  String.eqb raw "" || all_space raw || ci_equal (strip raw) "empty response".

(** The node is a decomposition artifact: its text, trimmed and compared
    without regard to case, begins with "sub question:". *)
Definition sub_question_text (node : NodeWithScore) : bool :=
  ci_begins_with (nws_text node) "sub question:".

(** The nodes that survive the source filter, in retrieval order. *)
Definition retained (nodes : list NodeWithScore) : list NodeWithScore :=
  List.filter (fun node => negb (sub_question_text node)) nodes.

(** [result] is the entry appended in the iteration that visits [node]:
    the node's metadata is assigned (when it has any) on top of some
    earlier state [l] of the locals, and the result is built from that. *)
Definition built_from (result : SearchResult) (node : NodeWithScore) : Prop :=
  exists l, make_result node (assign_metadata node l) = Returned result.

(** The metadata value under [key], or [fallback] when the key is
    missing or its value is the empty string. *)
Definition metadata_or (md : gmap string string) (key fallback : string) : string :=
  match md !! key with
  | Some (String c s) => String c s
  | Some EmptyString | None => fallback
  end.

(** The transformation chain as the specification words it: the
    splitter first, then each extractor whose flag is set, in the order
    title, questions, keywords, summary. *)
Definition expected_chain (request : IngestionRequest) : list Transformation :=
  (SentenceSplitter (chunk_size request) (chunk_overlap request)
   :: (if extract_title request then [TitleExtractor 5] else [])
   ++ (if extract_qa request then [QuestionsAnsweredExtractor 3] else [])
   ++ (if extract_keywords request then [KeywordExtractor 15] else [])
   ++ (if extract_summary request
       then [SummaryExtractor ["prev"; "self"] 5 5] else []))%list.

(** The chains handed to the pipeline by the calls in [cs]. *)
Definition pipeline_chains (cs : list Call) : list (list Transformation) :=
  flat_map (fun c => match c with
                     | CallPipelineRun ts _ => [ts]
                     | _ => []
                     end) cs.

(** The memo is coherent when a memoized index is the one built over
    the memoized store: the process holds at most one live handle. *)
Definition memo_coherent (m : Models) : Prop :=
  forall ix, _index m = Some ix -> _vector_store m = Some (index_store ix).

(** A request served by the process, with the state of the external
    world at the time it is served. *)
Inductive Served : Type :=
| ServedSearch (w : World) (b : SearchBody)
| ServedIngest (w : World) (b : IngestionBody).

(** The handlers are coroutines without a single [await]: each request
    runs to completion before the next one starts. *)
Definition serve (r : Served) (p : Proc) : Proc :=
  match r with
  | ServedSearch w b => snd (post_search w b p)
  | ServedIngest w b => snd (post_ingest w b p)
  end.

Definition serve_all (rs : list Served) (p : Proc) : Proc :=
  fold_left (fun p r => serve r p) rs p.

(** ** The chat front end ([app/frontend/gradio_app.py]), request side *)

(** Lines 31-47 of [search_rag]: a query that is blank once trimmed
    returns at once and nothing is sent; otherwise the payload posted to
    the search endpoint carries the three arguments as they are. *)
Definition search_rag_payload (query : string) (similarity_top_k : Z)
    (use_sub_questions : bool) : option SearchBody :=
  if negb (truthy (strip query)) then None
  else Some {| body_query := Some query;
               body_similarity_top_k := Some similarity_top_k;
               body_use_sub_questions := Some use_sub_questions |}.

(** ** Notions about the log of external calls *)

Definition is_query (c : Call) : bool :=
  match c with CallQuery _ _ => true | _ => false end.

(** Opening the store or building the index handle over it. *)
Definition is_construction (c : Call) : bool :=
  match c with
  | CallFromLocal _ | CallFromVectorStore _ => true
  | _ => false
  end.

(** The calls only the ingestion handler makes. *)
Definition is_ingestion_call (c : Call) : bool :=
  match c with
  | CallLoadData _ _ _ | CallSentenceSplitter _ _
  | CallPipelineRun _ _ | CallBuildIndex _ _ _ => true
  | _ => false
  end.

(** The retrieval engines a query engine consults. *)
Definition base_engines (e : QueryEngine) : list BaseQueryEngine :=
  match e with
  | SimpleQueryEngine b => [b]
  | SubQuestionQueryEngine tools _ _ => map tool_query_engine tools
  end.

Definition is_search (r : Served) : Prop :=
  match r with ServedSearch _ _ => True | ServedIngest _ _ => False end.

(** The retained nodes, each paired with the metadata mapping in force
    when its entry is built: its own when it has one, otherwise the one
    of the nearest retained node before it that has one ([cur] is the
    mapping in force before the first node). *)
Fixpoint carried (nodes : list NodeWithScore) (cur : option (gmap string string))
  : list (NodeWithScore * option (gmap string string)) :=
  match nodes with
  | [] => []
  | node :: rest =>
      let cur' := match nws_metadata node with
                  | Some md => Some md
                  | None => cur
                  end in
      (node, cur') :: carried rest cur'
  end.

(** The locals that hold what [dict.get] returned on the mapping in
    force, or nothing while no mapping has been seen. *)
Definition locals_of (cur : option (gmap string string)) : Locals :=
  match cur with
  | Some md => {| var_file_name := Some (md !! "file_name");
                  var_summary := Some (md !! "document_title") |}
  | None => unbound
  end.
Arguments locals_of : simpl never.

(** ** Concrete scenarios, used to exercise the statements below *)

Module Scenario.

Definition boom : exn := Exn "RuntimeError" "LLM unavailable".

(** A world in which every external call succeeds and the query
    engine answers [response]; the loader yields [documents]. *)
Definition world (response : Response) (documents : list Document) : World :=
  {| w_config := default_config;
     w_from_local := fun _ => None;
     w_from_vector_store := fun _ => None;
     w_DEFAULT_SUB_QUESTION_PROMPT_TMPL := "{tools_str} {query_str}";
     w_engine := fun _ => None;
     w_query := fun _ _ => Returned response;
     w_load_data := fun _ _ _ => Returned documents;
     w_SentenceSplitter := fun _ _ => None;
     w_pipeline_run := fun _ docs =>
       Returned (map (fun d => {| node_text := doc_text d;
                                  node_metadata := doc_metadata d |}) docs);
     w_build_index := fun _ _ _ => None |}.

(** The same world, except that the query itself fails. *)
Definition failing_query_world : World :=
  {| w_config := default_config;
     w_from_local := fun _ => None;
     w_from_vector_store := fun _ => None;
     w_DEFAULT_SUB_QUESTION_PROMPT_TMPL := "{tools_str} {query_str}";
     w_engine := fun _ => None;
     w_query := fun _ _ => Raised boom;
     w_load_data := fun _ _ _ => Returned [];
     w_SentenceSplitter := fun _ _ => None;
     w_pipeline_run := fun _ _ => Returned [];
     w_build_index := fun _ _ _ => None |}.

(** The same world, except that the loader raises. *)
Definition missing_dir_world : World :=
  {| w_config := default_config;
     w_from_local := fun _ => None;
     w_from_vector_store := fun _ => None;
     w_DEFAULT_SUB_QUESTION_PROMPT_TMPL := "{tools_str} {query_str}";
     w_engine := fun _ => None;
     w_query := fun _ _ => Raised boom;
     w_load_data := fun _ _ _ =>
       Raised (Exn "ValueError" "Directory ./nowhere does not exist.");
     w_SentenceSplitter := fun _ _ => None;
     w_pipeline_run := fun _ _ => Returned [];
     w_build_index := fun _ _ _ => None |}.

Definition request : SearchRequest :=
  {| query := "Can I bring a pet?"; similarity_top_k := 5; use_sub_questions := false |}.

Definition titled : NodeWithScore :=
  {| nws_text := "Pets travel in the cabin.";
     nws_metadata := Some (<["file_name" := "pets.pdf"]>
                           (<["document_title" := "Pet policy"]> ∅));
     nws_score := Some (Some 0.5%float) |}.

(** A node whose extracted title is the empty string. *)
Definition untitled : NodeWithScore :=
  {| nws_text := "Checked bags.";
     nws_metadata := Some (<["file_name" := "bags.pdf"]>
                           (<["document_title" := ""]> ∅));
     nws_score := Some (Some 0.25%float) |}.

(** A node object without a [metadata] attribute. *)
Definition bare : NodeWithScore :=
  {| nws_text := "Seat selection."; nws_metadata := None; nws_score := None |}.

Definition sub_question : NodeWithScore :=
  {| nws_text := "  Sub question: what about cats?";
     nws_metadata := Some ∅;
     nws_score := None |}.

Definition respond (s : string) (nodes : list NodeWithScore) : Response :=
  {| response_str := s; response_source_nodes := Some nodes |}.

Definition ingestion_body (size overlap : Z) : IngestionBody :=
  {| body_input_dir := Some "./policies";
     body_chunk_size := Some size;
     body_chunk_overlap := Some overlap;
     body_extract_title := Some true;
     body_extract_qa := Some false;
     body_extract_keywords := Some false;
     body_extract_summary := Some false |}.

Definition ingestion_request : IngestionRequest :=
  {| input_dir := "./policies"; chunk_size := 512; chunk_overlap := 128;
     extract_title := true; extract_qa := false;
     extract_keywords := false; extract_summary := false |}.

Definition one_doc : Document :=
  {| doc_text := "Pets travel in the cabin."; doc_metadata := ∅ |}.

(** A search over three retrieved nodes, one of them a decomposition
    artifact, in which the model emits the empty-response sentinel. *)
Definition sentinel_world : World :=
  world (respond "Empty Response" [titled; sub_question; untitled]) [].

Definition sentinel_response : SearchResponse :=
  {| resp_query := "Can I bring a pet?";
     answer := FALLBACK_ANSWER;
     results :=
       [ {| file_name := Some "pets.pdf"; summary := Some "Pet policy";
            score := Some 0.5%float |};
         {| file_name := Some "bags.pdf"; summary := Some "No summary available";
            score := Some 0.25%float |} ] |}.

(** A world in which the store opens but no index can be built over it. *)
Definition no_index_world : World :=
  {| w_config := default_config;
     w_from_local := fun _ => None;
     w_from_vector_store := fun _ => Some (Exn "ValueError" "embedding model unavailable");
     w_DEFAULT_SUB_QUESTION_PROMPT_TMPL := "{tools_str} {query_str}";
     w_engine := fun _ => None;
     w_query := fun _ _ => Raised boom;
     w_load_data := fun _ _ _ => Returned [];
     w_SentenceSplitter := fun _ _ => None;
     w_pipeline_run := fun _ _ => Returned [];
     w_build_index := fun _ _ _ => None |}.

Definition search_body_of (q : string) (k : Z) (sub : bool) : SearchBody :=
  {| body_query := Some q;
     body_similarity_top_k := Some k;
     body_use_sub_questions := Some sub |}.

(** A configuration whose PERSIST_DIR has no trailing separator. *)
Definition unslashed_config : Config :=
  {| PERSIST_DIR := "./persist"; DB_PATH := "pg.duckdb"; DATA_DIR := "./policies" |}.

(** A world with that configuration in which every external call
    succeeds. *)
Definition unslashed_world : World :=
  {| w_config := unslashed_config;
     w_from_local := fun _ => None;
     w_from_vector_store := fun _ => None;
     w_DEFAULT_SUB_QUESTION_PROMPT_TMPL := "{tools_str} {query_str}";
     w_engine := fun _ => None;
     w_query := fun _ _ => Raised boom;
     w_load_data := fun _ _ _ => Returned [one_doc];
     w_SentenceSplitter := fun _ _ => None;
     w_pipeline_run := fun _ docs =>
       Returned (map (fun d => {| node_text := doc_text d;
                                  node_metadata := doc_metadata d |}) docs);
     w_build_index := fun _ _ _ => None |}.

End Scenario.

(** * Properties *)

(** ** Facts about the string operations *)

Module PyStrFacts.

Lemma isspace_lower_char c : isspace (lower_char c) = isspace c.
Proof. destruct c as [[] [] [] [] [] [] [] []]; reflexivity. Qed.

Lemma lower_nonempty c s : lower (String c s) <> EmptyString.
Proof. discriminate. Qed.

Lemma lower_lstrip s : lower (lstrip s) = lstrip (lower s).
Proof.
  induction s as [|c s IH]; simpl; [reflexivity|].
  rewrite isspace_lower_char.
  destruct (isspace c); [exact IH | reflexivity].
Qed.

Lemma lower_rstrip s : lower (rstrip s) = rstrip (lower s).
Proof.
  induction s as [|c s IH]; simpl; [reflexivity|].
  rewrite <- IH, isspace_lower_char.
  destruct (rstrip s) as [|d r]; simpl.
  - destruct (isspace c); reflexivity.
  - reflexivity.
Qed.

(** Lower-casing and trimming commute. *)
Lemma lower_strip s : lower (strip s) = strip (lower s).
Proof. unfold strip. now rewrite lower_rstrip, lower_lstrip. Qed.

Lemma rstrip_empty s : rstrip s = EmptyString <-> all_space s = true.
Proof.
  induction s as [|c s IH]; simpl; [tauto|].
  destruct (rstrip s) as [|d r].
  - destruct (isspace c); simpl.
    + split; intros _; [now apply IH | reflexivity].
    + split; discriminate.
  - split; [discriminate|].
    intros H. apply andb_true_iff in H as [_ H].
    apply IH in H. discriminate.
Qed.

Lemma all_space_lstrip s : all_space (lstrip s) = all_space s.
Proof.
  induction s as [|c s IH]; simpl; [reflexivity|].
  destruct (isspace c) eqn:E; simpl; [exact IH | now rewrite E].
Qed.

(** Trimming leaves nothing exactly when every character is whitespace. *)
Lemma strip_empty s : strip s = EmptyString <-> all_space s = true.
Proof. unfold strip. now rewrite rstrip_empty, all_space_lstrip. Qed.

Lemma strip_eqb_empty s : String.eqb (strip s) "" = all_space s.
Proof.
  destruct (all_space s) eqn:E.
  - apply strip_empty in E. now rewrite E.
  - apply String.eqb_neq. intros H. apply strip_empty in H. congruence.
Qed.

Lemma truthy_eqb s : negb (truthy s) = String.eqb s "".
Proof. now destruct s. Qed.

End PyStrFacts.

(** ** The index accessor *)

Ltac run :=
  unfold get_index, get_vector_store, VectorStoreIndex_from_vector_store,
    DuckDBVectorStore_from_local, reset_models,
    bind, ret, raise, check, lift, log, new_ref, read_models, write_models in *;
  simpl in *.

Ltac split_oracles :=
  repeat match goal with
    | |- context [match ?o with None => _ | Some _ => _ end] => destruct o eqn:?; simpl
    | |- context [match ?o with Returned _ => _ | Raised _ => _ end] => destruct o eqn:?; simpl
    end.

Section IndexAccessor.

Variable w : World.

(** With a memoized index, [get_index] returns it and touches nothing. *)
Lemma get_index_memoized p ix :
  _index (models p) = Some ix -> get_index w p = (Returned ix, p).
Proof. intros H. run. now rewrite H. Qed.

(** Whatever [get_index] returns is what the memo holds afterwards. *)
Lemma get_index_returns p ix p' :
  get_index w p = (Returned ix, p') -> _index (models p') = Some ix.
Proof.
  run. destruct (_index (models p)) eqn:Hi.
  - intros [= <- <-]. exact Hi.
  - destruct (_vector_store (models p)); simpl; split_oracles;
      intros [= <- <-]; reflexivity.
Qed.

(** [get_index] never clears or replaces a memoized store handle. *)
Lemma get_index_keeps_store p vs :
  _vector_store (models p) = Some vs ->
  _vector_store (models (snd (get_index w p))) = Some vs.
Proof.
  intros Hv. run. destruct (_index (models p)); simpl; [exact Hv|].
  rewrite Hv; simpl. split_oracles; exact Hv.
Qed.

(** While the index memo is empty it either stays empty or is filled. *)
Lemma get_index_outcome p :
  match get_index w p with
  | (Returned ix, p') => _index (models p') = Some ix
  | (Raised _, p') => _index (models p') = _index (models p)
  end.
Proof.
  destruct (get_index w p) as [[ix|e] p'] eqn:E.
  - eapply get_index_returns; eassumption.
  - revert E. run. destruct (_index (models p)) eqn:Hi; [discriminate|].
    destruct (_vector_store (models p)); simpl; split_oracles;
      intros [= <- <-]; simpl; congruence.
Qed.

End IndexAccessor.

(** ** Response shaping *)

Section Shaping.

Import PyStrFacts.

Lemma is_empty_response_degenerate raw :
  is_empty_response raw = degenerate_answer raw.
Proof.
  unfold is_empty_response, degenerate_answer, ci_equal.
  now rewrite truthy_eqb, strip_eqb_empty.
Qed.

Lemma guardrail_degenerate raw :
  guardrail raw = if degenerate_answer raw then FALLBACK_ANSWER else raw.
Proof. unfold guardrail. now rewrite is_empty_response_degenerate. Qed.

(** The four literal answers named by the specification. *)
Lemma guardrail_literals :
  guardrail "" = FALLBACK_ANSWER /\ guardrail " " = FALLBACK_ANSWER /\
  guardrail "Empty Response" = FALLBACK_ANSWER /\
  guardrail "EMPTY RESPONSE" = FALLBACK_ANSWER /\
  guardrail "No pets allowed." = "No pets allowed.".
Proof. repeat split; reflexivity. Qed.

Lemma is_sub_question_text node : is_sub_question node = sub_question_text node.
Proof.
  unfold is_sub_question, sub_question_text, ci_begins_with, startswith.
  now rewrite lower_strip.
Qed.

Lemma or_else_metadata md key fallback :
  or_else (md !! key) fallback = metadata_or md key fallback.
Proof. unfold or_else, metadata_or. destruct (md !! key) as [[|c s]|]; reflexivity. Qed.

(** One result per retained node, appended in order. *)
Lemma source_loop_built nodes : forall l acc rs,
  source_loop nodes l acc = Returned rs ->
  exists rs', rs = (acc ++ rs')%list /\ Forall2 built_from rs' (retained nodes).
Proof.
  induction nodes as [|node rest IH]; intros l acc rs; simpl.
  - intros [= <-]. exists []. split; [now rewrite app_nil_r | constructor].
  - rewrite <- is_sub_question_text.
    destruct (is_sub_question node); simpl.
    + apply IH.
    + destruct (make_result node (assign_metadata node l)) as [r|e] eqn:Hr;
        [|discriminate].
      intros H. apply IH in H as (rs' & -> & HF).
      exists (r :: rs'). split.
      * unfold append. now rewrite <- app_assoc.
      * constructor; [now exists l | exact HF].
Qed.

Lemma extract_results_built response rs :
  extract_results response = Returned rs ->
  Forall2 built_from rs (retained (default [] (response_source_nodes response))).
Proof.
  unfold extract_results. destruct (response_source_nodes response) as [nodes|]; simpl.
  - intros H. apply source_loop_built in H as (rs' & -> & HF). exact HF.
  - intros [= <-]. constructor.
Qed.

(** What an entry built from a node holds. *)
Lemma built_from_fields result node :
  built_from result node ->
  score result = score_of node /\
  forall md, nws_metadata node = Some md ->
    file_name result = Some (metadata_or md "file_name" "Unknown") /\
    summary result = Some (metadata_or md "document_title" "No summary available").
Proof.
  intros [l H]. unfold make_result, assign_metadata in H.
  destruct (nws_metadata node) as [md|] eqn:Hm; simpl in H.
  - injection H as <-. simpl. split; [reflexivity|].
    intros md' [= <-]. now rewrite !or_else_metadata.
  - split; [|discriminate].
    destruct (var_file_name l); simpl in H; [|discriminate].
    destruct (var_summary l); simpl in H; [|discriminate].
    now injection H as <-.
Qed.

End Shaping.

(** ** The search handler *)

Section Search.

Variable w : World.
Variable request : SearchRequest.

(** A successful search, taken apart. *)
Lemma search_ok p resp p' :
  search w request p = (Ok200 resp, p') ->
  exists index response,
    w_query w (choose_engine w request index) (query request) = Returned response /\
    extract_results response = Returned (results resp) /\
    answer resp = guardrail (response_str response) /\
    resp_query resp = query request.
Proof.
  unfold search, handler, search_body.
  unfold bind at 1.
  destruct (get_index w p) as [[ix|e] p1]; [|discriminate].
  unfold bind, log, check, lift, ret; simpl.
  destruct (w_engine w (choose_engine w request ix)); [discriminate|].
  destruct (w_query w (choose_engine w request ix) (query request))
    as [response|e] eqn:Hq; [|discriminate].
  destruct (extract_results response) as [rs|e] eqn:Hx; [|discriminate].
  intros [= <- _]. exists ix, response. simpl. auto.
Qed.

(** [search] touches the memo only through its call of [get_index]. *)
Lemma search_models p :
  models (snd (search w request p)) = models (snd (get_index w p)).
Proof.
  unfold search, handler, search_body.
  unfold bind at 1.
  destruct (get_index w p) as [[ix|e] p1]; [|reflexivity].
  unfold bind, log, check, lift, ret; simpl.
  destruct (w_engine w (choose_engine w request ix)); [reflexivity|].
  destruct (w_query w (choose_engine w request ix) (query request))
    as [response|e]; [|reflexivity].
  destruct (extract_results response); reflexivity.
Qed.

End Search.

(** ** Claims about the search response *)

Section SearchClaims.

Variable w : World.
Variable request : SearchRequest.

(** C1.  Whenever [search] returns a response, its [answer] field is the
    fixed fallback text, verbatim, if the raw answer of the query engine
    is empty, consists of whitespace only, or equals "empty response"
    after trimming and without regard to case; for every other raw
    answer the field is the raw answer itself. *)
Theorem search_answer_guardrail (p p' : Proc) (resp : SearchResponse) :
  search w request p = (Ok200 resp, p') ->
  exists index response,
    w_query w (choose_engine w request index) (query request) = Returned response /\
    answer resp =
      if degenerate_answer (response_str response)
      then "I couldn't find relevant information to answer your question. Please contact customer support for further assistance."
      else response_str response.
Proof.
  intros H. apply search_ok in H as (index & response & Hq & _ & Ha & _).
  exists index, response. split; [exact Hq|].
  rewrite Ha. apply guardrail_degenerate.
Qed.

(** C2.  Whenever [search] returns a response, its [results] are built,
    one by one and in order, from exactly those source nodes whose text
    does not begin with "sub question:" (trimmed, case ignored): no
    entry comes from a node with such a text, whatever the value of
    [use_sub_questions]. *)
Theorem search_drops_sub_questions (p p' : Proc) (resp : SearchResponse) :
  search w request p = (Ok200 resp, p') ->
  exists index response,
    w_query w (choose_engine w request index) (query request) = Returned response /\
    let nodes := default [] (response_source_nodes response) in
    Forall2 built_from (results resp) (retained nodes) /\
    Forall (fun node => sub_question_text node = false) (retained nodes) /\
    (forall node, In node nodes -> sub_question_text node = true ->
                  ~ In node (retained nodes)).
Proof.
  intros H. apply search_ok in H as (index & response & Hq & Hx & _ & _).
  exists index, response. split; [exact Hq|]. cbv zeta.
  split; [now apply extract_results_built|].
  unfold retained. split.
  - apply List.Forall_forall. intros node Hin.
    apply List.filter_In in Hin as [_ Hn]. now apply negb_true_iff in Hn.
  - intros node _ Hs Hin. apply List.filter_In in Hin as [_ Hn].
    rewrite Hs in Hn. discriminate.
Qed.

(** C3 (amended).  Whenever [search] returns a response, every retained
    node that carries a metadata mapping yields an entry whose
    [file_name] is the mapping's "file_name" value when that is present
    and not empty, and "Unknown" otherwise; whose [summary] is the
    "document_title" value when present and not empty, and
    "No summary available" otherwise; and every retained node yields an
    entry whose [score] is the node's score when it carries one and
    null otherwise. *)
Theorem search_result_fields (p p' : Proc) (resp : SearchResponse) :
  search w request p = (Ok200 resp, p') ->
  exists index response,
    w_query w (choose_engine w request index) (query request) = Returned response /\
    Forall2
      (fun result node =>
         score result = score_of node /\
         forall md, nws_metadata node = Some md ->
           file_name result = Some (metadata_or md "file_name" "Unknown") /\
           summary result =
             Some (metadata_or md "document_title" "No summary available"))
      (results resp)
      (retained (default [] (response_source_nodes response))).
Proof.
  intros H. apply search_ok in H as (index & response & Hq & Hx & _ & _).
  exists index, response. split; [exact Hq|].
  apply extract_results_built in Hx.
  eapply Forall2_impl; [exact Hx|].
  intros result node Hb. now apply built_from_fields.
Qed.

End SearchClaims.

(** C1 at work: the engine emits "Empty Response" and the answer is the
    fallback text. *)
Lemma search_answer_guardrail_witness :
  exists index response,
    w_query Scenario.sentinel_world
      (choose_engine Scenario.sentinel_world Scenario.request index)
      (query Scenario.request) = Returned response /\
    answer Scenario.sentinel_response =
      if degenerate_answer (response_str response)
      then "I couldn't find relevant information to answer your question. Please contact customer support for further assistance."
      else response_str response.
Proof.
  apply (search_answer_guardrail Scenario.sentinel_world Scenario.request fresh_proc
           (snd (search Scenario.sentinel_world Scenario.request fresh_proc))
           Scenario.sentinel_response).
  vm_compute. reflexivity.
Defined.

(** C2 at work: three nodes are retrieved, the decomposition artifact
    among them yields no entry. *)
Lemma search_drops_sub_questions_witness :
  exists index response,
    w_query Scenario.sentinel_world
      (choose_engine Scenario.sentinel_world Scenario.request index)
      (query Scenario.request) = Returned response /\
    let nodes := default [] (response_source_nodes response) in
    Forall2 built_from (results Scenario.sentinel_response) (retained nodes) /\
    Forall (fun node => sub_question_text node = false) (retained nodes) /\
    (forall node, In node nodes -> sub_question_text node = true ->
                  ~ In node (retained nodes)).
Proof.
  apply (search_drops_sub_questions Scenario.sentinel_world Scenario.request fresh_proc
           (snd (search Scenario.sentinel_world Scenario.request fresh_proc))
           Scenario.sentinel_response).
  vm_compute. reflexivity.
Defined.

(** C3 (amended) at work on the same search. *)
Lemma search_result_fields_witness :
  exists index response,
    w_query Scenario.sentinel_world
      (choose_engine Scenario.sentinel_world Scenario.request index)
      (query Scenario.request) = Returned response /\
    Forall2
      (fun result node =>
         score result = score_of node /\
         forall md, nws_metadata node = Some md ->
           file_name result = Some (metadata_or md "file_name" "Unknown") /\
           summary result =
             Some (metadata_or md "document_title" "No summary available"))
      (results Scenario.sentinel_response)
      (retained (default [] (response_source_nodes response))).
Proof.
  apply (search_result_fields Scenario.sentinel_world Scenario.request fresh_proc
           (snd (search Scenario.sentinel_world Scenario.request fresh_proc))
           Scenario.sentinel_response).
  vm_compute. reflexivity.
Defined.

(** C3, as stated, fails: a retained node whose metadata maps
    "document_title" to the empty string gets the summary
    "No summary available", not the metadata value. *)
Lemma search_empty_title_counterexample :
  exists resp p' md result,
    search (Scenario.world (Scenario.respond "Bags fly free." [Scenario.untitled]) [])
           Scenario.request fresh_proc = (Ok200 resp, p') /\
    retained [Scenario.untitled] = [Scenario.untitled] /\
    nws_metadata Scenario.untitled = Some md /\
    md !! "document_title" = Some "" /\
    results resp = [result] /\
    summary result = Some "No summary available" /\
    summary result <> md !! "document_title".
Proof.
  eexists _, _, _, _.
  split; [vm_compute; reflexivity|].
  split; [vm_compute; reflexivity|].
  split; [reflexivity|].
  split; [vm_compute; reflexivity|].
  split; [reflexivity|].
  split; [reflexivity|].
  vm_compute. discriminate.
Qed.

(** A node object without a [metadata] attribute leaves the locals
    [file_name] and [summary] as the previous iteration set them.  When
    it is the first retained node they are still unbound and the request
    fails. *)
Lemma search_bare_first_node_fails :
  fst (search (Scenario.world (Scenario.respond "Seats." [Scenario.bare]) [])
              Scenario.request fresh_proc)
  = HTTPException 500
      "Search failed: cannot access local variable 'file_name' where it is not associated with a value".
Proof. vm_compute. reflexivity. Qed.

(** When it follows a retained node with metadata, its entry repeats
    that node's file name and summary. *)
Lemma search_bare_node_inherits :
  exists resp p',
    search (Scenario.world
              (Scenario.respond "Seats." [Scenario.titled; Scenario.bare]) [])
           Scenario.request fresh_proc = (Ok200 resp, p') /\
    results resp =
      [ {| file_name := Some "pets.pdf"; summary := Some "Pet policy";
           score := Some 0.5%float |};
        {| file_name := Some "pets.pdf"; summary := Some "Pet policy";
           score := None |} ].
Proof. eexists _, _. split; vm_compute; reflexivity. Qed.

(** ** The ingestion handler *)

Ltac run_ingest :=
  unfold post_ingest, ingest_documents, handler, ingest_body, reset_models,
    bind, ret, raise, check, lift, log, write_models in *;
  simpl in *.

Section Ingestion.

Variable w : World.
Variable request : IngestionRequest.

(** The handler itself never answers with a validation error. *)
Lemma ingest_documents_not_validation p :
  fst (ingest_documents w request p) <> RequestValidationError.
Proof. run_ingest. split_oracles; discriminate. Qed.

(** The first external call of the handler is the document load, and a
    pipeline is only ever run over [build_transformations request]. *)
Lemma ingest_documents_calls p :
  exists rest,
    calls (snd (ingest_documents w request p))
    = (calls p ++ CallLoadData (input_dir request) FILE_EXTRACTOR true :: rest)%list /\
    Forall (fun c => forall ts docs,
                c = CallPipelineRun ts docs -> ts = build_transformations request)
           rest.
Proof.
  run_ingest. split_oracles; rewrite <- ?app_assoc; simpl;
    eexists; (split; [reflexivity|]);
    repeat (constructor; try (intros ts docs [=]; congruence)).
Qed.

(** A successful ingestion, taken apart. *)
Lemma ingest_documents_ok p resp p' :
  ingest_documents w request p = (Ok200 resp, p') ->
  exists documents nodes,
    w_load_data w (input_dir request) FILE_EXTRACTOR true = Returned documents /\
    w_pipeline_run w (build_transformations request) documents = Returned nodes /\
    resp = {| success := true;
              message := "Documents ingested and indexed successfully";
              documents_processed := Z.of_nat (length documents);
              nodes_created := Z.of_nat (length nodes) |} /\
    models p' = {| _vector_store := None; _index := None |} /\
    next_ref p' = next_ref p.
Proof.
  run_ingest.
  destruct (w_load_data w (input_dir request) FILE_EXTRACTOR true)
    as [documents|e] eqn:Hl; simpl; [|discriminate].
  destruct (w_SentenceSplitter w (chunk_size request) (chunk_overlap request));
    simpl; [discriminate|].
  destruct (w_pipeline_run w (build_transformations request) documents)
    as [nodes|e] eqn:Hp; simpl; [|discriminate].
  destruct (w_build_index w (DB_PATH (w_config w)) (PERSIST_DIR (w_config w)) nodes);
    simpl; [discriminate|].
  intros [= <- <-]. exists documents, nodes. simpl. auto.
Qed.

End Ingestion.

(** ** Claims about ingestion *)

(** C4 (amended).  Request validation checks each field against its own
    bounds only.  An ingestion request whose overlap is at least its
    chunk size is rejected by validation, with no external call made,
    exactly when its chunk size is below 100 or its overlap above 500;
    when 100 <= chunk_size <= chunk_overlap <= 500 validation accepts
    it and the handler goes on to load the documents. *)
Theorem ingest_validation_overlap (w : World) (b : IngestionBody) (p : Proc) :
  let size := default 512 (body_chunk_size b) in
  let overlap := default 128 (body_chunk_overlap b) in
  size <= overlap ->
  (post_ingest w b p = (RequestValidationError, p) <-> size < 100 \/ 500 < overlap) /\
  (100 <= size -> overlap <= 500 ->
   exists rest,
     calls (snd (post_ingest w b p))
     = (calls p
        ++ CallLoadData (default "./policies" (body_input_dir b)) FILE_EXTRACTOR true
        :: rest)%list).
Proof.
  intros size overlap Hle.
  unfold post_ingest, validate_IngestionRequest, within; simpl.
  fold size overlap.
  destruct (100 <=? size) eqn:H1; destruct (size <=? 2000) eqn:H2;
    destruct (0 <=? overlap) eqn:H3; destruct (overlap <=? 500) eqn:H4; simpl;
    try (split; [split; [lia | reflexivity] | lia]).
  split.
  - split; [|lia]. intros H.
    match type of H with
    | ingest_documents ?w0 ?r0 ?p0 = _ =>
        pose proof (ingest_documents_not_validation w0 r0 p0) as Hn
    end.
    rewrite H in Hn. now contradiction Hn.
  - intros _ _.
    match goal with
    | |- context [ingest_documents ?w0 ?r0 ?p0] =>
        destruct (ingest_documents_calls w0 r0 p0) as (rest & Hc & _)
    end.
    exists rest. exact Hc.
Qed.

(** C4 (amended) at work: chunk_size = chunk_overlap = 300. *)
Lemma ingest_validation_overlap_witness :
  (post_ingest (Scenario.world (Scenario.respond "" []) [Scenario.one_doc])
     (Scenario.ingestion_body 300 300) fresh_proc
   = (RequestValidationError, fresh_proc) <-> 300 < 100 \/ 500 < 300) /\
  (100 <= 300 -> 300 <= 500 ->
   exists rest,
     calls (snd (post_ingest (Scenario.world (Scenario.respond "" []) [Scenario.one_doc])
                   (Scenario.ingestion_body 300 300) fresh_proc))
     = (calls fresh_proc ++ CallLoadData "./policies" FILE_EXTRACTOR true :: rest)%list).
Proof.
  apply (ingest_validation_overlap
           (Scenario.world (Scenario.respond "" []) [Scenario.one_doc])
           (Scenario.ingestion_body 300 300) fresh_proc).
  simpl. lia.
Defined.

(** C4, as stated, fails: a request with chunk_size = chunk_overlap = 300
    passes validation; its documents are loaded, the pipeline is run and
    the response reports success. *)
Lemma ingest_overlap_equal_size_accepted :
  exists request resp p',
    validate_IngestionRequest (Scenario.ingestion_body 300 300) = Some request /\
    chunk_size request <= chunk_overlap request /\
    post_ingest (Scenario.world (Scenario.respond "" []) [Scenario.one_doc])
      (Scenario.ingestion_body 300 300) fresh_proc = (Ok200 resp, p') /\
    success resp = true /\
    calls p' =
      [ CallLoadData "./policies" FILE_EXTRACTOR true;
        CallSentenceSplitter 300 300;
        CallPipelineRun [SentenceSplitter 300 300; TitleExtractor 5] [Scenario.one_doc];
        CallBuildIndex "pg.duckdb" "./persist/"
          [ {| node_text := "Pets travel in the cabin."; node_metadata := ∅ |} ] ].
Proof.
  eexists _, _, _.
  split; [vm_compute; reflexivity|].
  split; [vm_compute; discriminate|].
  split; [vm_compute; reflexivity|].
  split; reflexivity.
Qed.

(** C5.  The chain built for a request is the sentence splitter with the
    request's chunk size and overlap, followed by title extraction (5
    nodes), question generation (3 questions), keyword extraction (15
    keywords) and summary extraction (prev and self, 5 nodes), each
    present exactly when its flag is set and always in this order; and
    whenever the handler runs a pipeline it is this chain that it runs. *)
Theorem build_transformations_chain (w : World) (request : IngestionRequest) (p : Proc) :
  build_transformations request = expected_chain request /\
  exists added,
    calls (snd (ingest_documents w request p)) = (calls p ++ added)%list /\
    (pipeline_chains added = [] \/ pipeline_chains added = [expected_chain request]).
Proof.
  assert (Hb : build_transformations request = expected_chain request).
  { unfold build_transformations, expected_chain, append.
    destruct (extract_title request), (extract_qa request),
      (extract_keywords request), (extract_summary request); reflexivity. }
  split; [exact Hb|]. rewrite <- Hb.
  run_ingest.
  split_oracles; rewrite <- ?app_assoc; simpl;
    eexists; (split; [reflexivity|]); simpl; auto.
Qed.

(** C6 (amended).  When loading the documents raises, as the loader
    does for a directory that does not exist, the ingestion fails with
    status 500 and a detail that carries the cause; nothing else is
    called, the memo is left alone and no success response is returned. *)
Theorem ingest_loader_failure_reported
    (w : World) (request : IngestionRequest) (p : Proc) (e : exn) :
  w_load_data w (input_dir request) FILE_EXTRACTOR true = Raised e ->
  exists p',
    ingest_documents w request p
    = (HTTPException 500 ("Ingestion failed: " ++ exn_str e), p') /\
    calls p' = (calls p ++ [CallLoadData (input_dir request) FILE_EXTRACTOR true])%list /\
    models p' = models p.
Proof.
  intros H. run_ingest. rewrite H. simpl.
  eexists. split; [reflexivity|]. simpl. auto.
Qed.

(** C6 (amended) at work: the input directory does not exist. *)
Lemma ingest_loader_failure_reported_witness :
  exists p',
    ingest_documents Scenario.missing_dir_world Scenario.ingestion_request fresh_proc
    = (HTTPException 500
         ("Ingestion failed: "
          ++ exn_str (Exn "ValueError" "Directory ./nowhere does not exist.")), p') /\
    calls p' = (calls fresh_proc
                ++ [CallLoadData (input_dir Scenario.ingestion_request)
                      FILE_EXTRACTOR true])%list /\
    models p' = models fresh_proc.
Proof.
  apply (ingest_loader_failure_reported Scenario.missing_dir_world
           Scenario.ingestion_request fresh_proc
           (Exn "ValueError" "Directory ./nowhere does not exist.")).
  reflexivity.
Defined.

(** C6, as stated, fails: when the loader yields no document without
    raising, the handler goes on and answers with success and a count
    of zero. *)
Lemma ingest_zero_documents_succeeds :
  exists resp p',
    w_load_data (Scenario.world (Scenario.respond "" []) [])
      (input_dir Scenario.ingestion_request) FILE_EXTRACTOR true = Returned [] /\
    ingest_documents (Scenario.world (Scenario.respond "" []) [])
      Scenario.ingestion_request fresh_proc = (Ok200 resp, p') /\
    success resp = true /\
    documents_processed resp = 0.
Proof.
  eexists _, _.
  split; [reflexivity|].
  split; [vm_compute; reflexivity|].
  split; reflexivity.
Qed.

(** ** Claims about the memoized index *)

(** C7.  If a call of [get_index] returns a handle, the next call, with
    no invalidation in between, returns that same handle (same
    reference) and leaves the process as it was: no external call is
    made and no object is constructed, whatever the world looks like by
    then. *)
Theorem get_index_idempotent (w1 w2 : World) (p p1 : Proc) (ix : VectorStoreIndex) :
  get_index w1 p = (Returned ix, p1) ->
  get_index w2 p1 = (Returned ix, p1).
Proof.
  intros H. apply get_index_memoized. eapply get_index_returns. exact H.
Qed.

(** C7 at work: the second call is made in a world where nothing could
    be constructed any more. *)
Lemma get_index_idempotent_witness :
  get_index Scenario.failing_query_world
    (snd (get_index Scenario.sentinel_world fresh_proc))
  = (Returned {| index_ref := 1%nat;
                 index_store := {| store_ref := 0%nat;
                                   store_path := "./persist/pg.duckdb" |} |},
     snd (get_index Scenario.sentinel_world fresh_proc)).
Proof.
  apply (get_index_idempotent Scenario.sentinel_world Scenario.failing_query_world
           fresh_proc).
  vm_compute. reflexivity.
Defined.

(** X19.  After an ingestion that answers with success both globals of
    the index accessor are empty.  The next [get_index] therefore starts
    by opening the store again; when it returns, the handle is a newly
    constructed one (its references are the next unused ones) over a
    newly opened store, and it is the one handle the memo holds; when it
    raises, the memo holds no index handle. *)
Theorem ingest_success_invalidates
    (w : World) (request : IngestionRequest) (p p' : Proc) (resp : IngestionResponse) :
  ingest_documents w request p = (Ok200 resp, p') ->
  success resp = true /\
  _vector_store (models p') = None /\
  _index (models p') = None /\
  forall w2,
    let path := PERSIST_DIR (w_config w2) ++ DB_PATH (w_config w2) in
    match get_index w2 p' with
    | (Returned ix, p'') =>
        calls p'' = (calls p' ++ [CallFromLocal path;
                                  CallFromVectorStore (index_store ix)])%list /\
        index_store ix = {| store_ref := next_ref p'; store_path := path |} /\
        index_ref ix = S (next_ref p') /\
        models p'' = {| _vector_store := Some (index_store ix); _index := Some ix |}
    | (Raised _, p'') =>
        (exists rest, calls p'' = (calls p' ++ CallFromLocal path :: rest)%list) /\
        _index (models p'') = None
    end.
Proof.
  intros H. apply ingest_documents_ok in H as (docs & nodes & _ & _ & -> & Hm & _).
  destruct p' as [m n cs]. simpl in Hm. subst m. simpl.
  repeat (split; [reflexivity|]).
  intros w2. cbv zeta. run.
  split_oracles; rewrite <- ?app_assoc; simpl.
  - split; [now exists []|reflexivity].
  - split; [now eexists|reflexivity].
  - auto.
Qed.

(** X19 at work: the memo is initialized, then an ingestion succeeds. *)
Lemma ingest_success_invalidates_witness :
  let p := snd (get_index Scenario.sentinel_world fresh_proc) in
  let w := Scenario.world (Scenario.respond "" []) [Scenario.one_doc] in
  let resp := {| success := true;
                 message := "Documents ingested and indexed successfully";
                 documents_processed := 1; nodes_created := 1 |} in
  let p' := snd (ingest_documents w Scenario.ingestion_request p) in
  is_Some (_index (models p)) /\
  success resp = true /\
  _vector_store (models p') = None /\
  _index (models p') = None /\
  forall w2,
    let path := PERSIST_DIR (w_config w2) ++ DB_PATH (w_config w2) in
    match get_index w2 p' with
    | (Returned ix, p'') =>
        calls p'' = (calls p' ++ [CallFromLocal path;
                                  CallFromVectorStore (index_store ix)])%list /\
        index_store ix = {| store_ref := next_ref p'; store_path := path |} /\
        index_ref ix = S (next_ref p') /\
        models p'' = {| _vector_store := Some (index_store ix); _index := Some ix |}
    | (Raised _, p'') =>
        (exists rest, calls p'' = (calls p' ++ CallFromLocal path :: rest)%list) /\
        _index (models p'') = None
    end.
Proof.
  split; [vm_compute; eauto|].
  apply (ingest_success_invalidates
           (Scenario.world (Scenario.respond "" []) [Scenario.one_doc])
           Scenario.ingestion_request
           (snd (get_index Scenario.sentinel_world fresh_proc))).
  vm_compute. reflexivity.
Defined.

(** ** The reader chosen for PDF files *)

Section PdfReader.

Import Loader.

Lemma from_last_dot_head s e :
  from_last_dot s = Some e -> exists t, e = String "."%char t.
Proof.
  revert e. induction s as [|c s IH]; intros e; simpl; [discriminate|].
  destruct (from_last_dot s) as [e'|].
  - intros [= <-]. now apply IH.
  - destruct (Ascii.eqb c "."%char) eqn:E; [|discriminate].
    apply Ascii.eqb_eq in E. subst c. intros [= <-]. now exists s.
Qed.

(** A suffix is empty or starts with a dot. *)
Lemma suffix_shape name :
  suffix name = EmptyString \/ exists t, suffix name = String "."%char t.
Proof.
  unfold suffix. destruct name as [|c rest]; [now left|].
  destruct (from_last_dot rest) as [e|] eqn:E; [|now left].
  destruct (String.eqb e "."); [now left|].
  right. eapply from_last_dot_head. exact E.
Qed.

(** No suffix, lower-cased, is the key under which the handler
    registers its PDF reader. *)
Lemma suffix_never_glob name : lower (suffix name) <> "*.pdf".
Proof.
  destruct (suffix_shape name) as [-> | [t ->]]; simpl; discriminate.
Qed.

(** With the mapping of the handler no file is given to the registered
    reader, whatever its name. *)
Lemma registered_reader_never_chosen name :
  reader_for FILE_EXTRACTOR name = DefaultReader.
Proof.
  unfold reader_for, FILE_EXTRACTOR.
  rewrite lookup_singleton_ne; [reflexivity|].
  intros H. symmetry in H. revert H. apply suffix_never_glob.
Qed.

(** Had the key been the suffix itself, every PDF file would be given
    to the registered reader. *)
Lemma suffix_key_selects_pdf name :
  is_pdf name = true ->
  reader_for {[ ".pdf" := PyMuPDFReader ]} name = PyMuPDFReader.
Proof.
  unfold is_pdf, reader_for. intros H. apply String.eqb_eq in H.
  rewrite H. now rewrite lookup_singleton_eq.
Qed.

(** C9.  The file [policy.pdf] is a PDF file, yet under suffix-based
    dispatch the mapping passed by the handler, whose only key is
    "*.pdf", does not select the registered PDF reader for it: the file
    falls to default extraction.  The key ".pdf" would select it. *)
Theorem pdf_reader_not_selected :
  is_pdf "policy.pdf" = true /\
  FILE_EXTRACTOR !! lower (suffix "policy.pdf") = None /\
  reader_for FILE_EXTRACTOR "policy.pdf" = DefaultReader /\
  reader_for {[ ".pdf" := PyMuPDFReader ]} "policy.pdf" = PyMuPDFReader.
Proof.
  split; [reflexivity|].
  split; [|split].
  - apply lookup_singleton_ne. apply not_eq_sym, suffix_never_glob.
  - apply registered_reader_never_chosen.
  - now apply suffix_key_selects_pdf.
Qed.

End PdfReader.

(** ** Search and the memoized state *)

(** A handle that [get_index] has to construct carries a reference that
    was unused before the call. *)
Lemma get_index_constructs_fresh (w : World) (p : Proc) :
  _index (models p) = None ->
  _index (models (snd (get_index w p))) = None \/
  exists ix, _index (models (snd (get_index w p))) = Some ix /\
             (next_ref p <= index_ref ix)%nat.
Proof.
  intros H. destruct p as [[vs i] n cs]. simpl in H. subst i.
  run. destruct vs; simpl; split_oracles; auto;
    right; eexists; (split; [reflexivity|simpl; lia]).
Qed.

(** C10 (amended).  A search, whether it succeeds or fails, leaves an
    already initialized memo exactly as it found it; it never clears or
    replaces a memoized store handle; and when the index memo was empty
    it is afterwards either still empty or filled with a newly
    constructed handle. *)
Theorem search_preserves_memo (w : World) (request : SearchRequest) (p : Proc) :
  let p' := snd (search w request p) in
  (forall ix, _index (models p) = Some ix -> models p' = models p) /\
  (forall vs, _vector_store (models p) = Some vs ->
              _vector_store (models p') = Some vs) /\
  (_index (models p) = None ->
   _index (models p') = None \/
   exists ix, _index (models p') = Some ix /\ (next_ref p <= index_ref ix)%nat).
Proof.
  cbv zeta. rewrite search_models. split; [|split].
  - intros ix H. now rewrite (get_index_memoized w p ix H).
  - intros vs H. now apply get_index_keeps_store.
  - apply get_index_constructs_fresh.
Qed.

(** C10 (amended) at work: a search fails on an initialized memo. *)
Lemma search_preserves_memo_witness :
  let p := snd (get_index Scenario.sentinel_world fresh_proc) in
  let p' := snd (search Scenario.failing_query_world Scenario.request p) in
  is_Some (_index (models p)) /\
  (forall ix, _index (models p) = Some ix -> models p' = models p) /\
  (forall vs, _vector_store (models p) = Some vs ->
              _vector_store (models p') = Some vs) /\
  (_index (models p) = None ->
   _index (models p') = None \/
   exists ix, _index (models p') = Some ix /\ (next_ref p <= index_ref ix)%nat).
Proof.
  split; [vm_compute; eauto|].
  apply (search_preserves_memo Scenario.failing_query_world Scenario.request
           (snd (get_index Scenario.sentinel_world fresh_proc))).
Defined.

(** C10, as stated, fails: the first search of a process opens the
    store and builds the index before it queries; when the query then
    fails, the search fails, yet the memo is no longer what it was. *)
Lemma failed_search_initializes_memo :
  exists detail p',
    search Scenario.failing_query_world Scenario.request fresh_proc
    = (HTTPException 500 detail, p') /\
    models fresh_proc = {| _vector_store := None; _index := None |} /\
    models p' =
      {| _vector_store :=
           Some {| store_ref := 0%nat; store_path := "./persist/pg.duckdb" |};
         _index :=
           Some {| index_ref := 1%nat;
                   index_store := {| store_ref := 0%nat;
                                     store_path := "./persist/pg.duckdb" |} |} |} /\
    models p' <> models fresh_proc.
Proof.
  eexists _, _.
  split; [vm_compute; reflexivity|].
  split; [reflexivity|].
  split; [reflexivity|].
  simpl. discriminate.
Qed.

(** ** One live handle *)

Section OneHandle.

Lemma get_index_coherent (w : World) (p : Proc) :
  memo_coherent (models p) -> memo_coherent (models (snd (get_index w p))).
Proof.
  unfold memo_coherent. destruct p as [[vs i] n cs]. simpl. intros H.
  run. destruct i as [ix|]; simpl; [exact H|].
  destruct vs; simpl; split_oracles; intros ix' [=]; subst; reflexivity.
Qed.

Lemma search_coherent (w : World) (request : SearchRequest) (p : Proc) :
  memo_coherent (models p) -> memo_coherent (models (snd (search w request p))).
Proof. rewrite search_models. apply get_index_coherent. Qed.

(** An ingestion leaves the memo alone or clears it. *)
Lemma ingest_documents_models (w : World) (request : IngestionRequest) (p : Proc) :
  models (snd (ingest_documents w request p)) = models p \/
  models (snd (ingest_documents w request p))
  = {| _vector_store := None; _index := None |}.
Proof. run_ingest. split_oracles; auto. Qed.

Lemma ingest_coherent (w : World) (request : IngestionRequest) (p : Proc) :
  memo_coherent (models p) ->
  memo_coherent (models (snd (ingest_documents w request p))).
Proof.
  intros H. destruct (ingest_documents_models w request p) as [-> | ->];
    [exact H | intros ix [=]].
Qed.

Lemma serve_coherent (r : Served) (p : Proc) :
  memo_coherent (models p) -> memo_coherent (models (serve r p)).
Proof.
  intros H. destruct r as [w b | w b]; simpl.
  - unfold post_search. destruct (validate_SearchRequest b);
      [now apply search_coherent | exact H].
  - unfold post_ingest. destruct (validate_IngestionRequest b);
      [now apply ingest_coherent | exact H].
Qed.

(** X3.  Whatever requests a fresh process serves, in whatever worlds, its
    memo stays coherent: a memoized index is always the one handle built
    over the memoized store. *)
Lemma memo_coherent_always (rs : list Served) :
  memo_coherent (models (serve_all rs fresh_proc)).
Proof.
  unfold serve_all.
  assert (G : forall p, memo_coherent (models p) ->
                        memo_coherent (models (fold_left (fun p r => serve r p) rs p))).
  { induction rs as [|r rs IH]; intros p Hp; simpl; [exact Hp|].
    apply IH. now apply serve_coherent. }
  apply G. intros ix [=].
Qed.

End OneHandle.

(** * Further properties of the handlers *)

(** ** The shaping loop in full *)

Section ShapingLoop.

Import PyStrFacts.

Lemma assign_metadata_locals node cur :
  assign_metadata node (locals_of cur)
  = locals_of (match nws_metadata node with Some md => Some md | None => cur end).
Proof. unfold assign_metadata, locals_of. now destruct (nws_metadata node). Qed.

Lemma make_result_locals node cur :
  make_result node (locals_of cur) =
  match cur with
  | Some md =>
      Returned {| file_name := Some (metadata_or md "file_name" "Unknown");
                  summary := Some (metadata_or md "document_title"
                                     "No summary available");
                  score := score_of node |}
  | None => Raised (UnboundLocalError "file_name")
  end.
Proof.
  destruct cur as [md|]; [|reflexivity].
  unfold make_result, locals_of; simpl. now rewrite !or_else_metadata.
Qed.

(** Once a mapping is in force the loop cannot raise any more. *)
Lemma source_loop_bound nodes : forall md acc,
  exists rs, source_loop nodes (locals_of (Some md)) acc = Returned rs.
Proof.
  induction nodes as [|node rest IH]; intros md acc; simpl; [now eexists|].
  destruct (is_sub_question node); simpl; [apply IH|].
  rewrite assign_metadata_locals, make_result_locals.
  destruct (nws_metadata node); apply IH.
Qed.

Lemma source_loop_unbound nodes : forall acc e,
  source_loop nodes unbound acc = Raised e <->
  e = UnboundLocalError "file_name" /\
  exists node rest, retained nodes = node :: rest /\ nws_metadata node = None.
Proof.
  induction nodes as [|node rest IH]; intros acc e; simpl.
  - split; [discriminate|]. intros (_ & n & r & H & _). discriminate.
  - rewrite <- is_sub_question_text.
    destruct (is_sub_question node); simpl; [apply IH|].
    change unbound with (locals_of None).
    rewrite assign_metadata_locals, make_result_locals.
    destruct (nws_metadata node) as [md|] eqn:Hm.
    + split.
      * intros H. destruct (source_loop_bound rest md
          (append acc {| file_name := Some (metadata_or md "file_name" "Unknown");
                         summary := Some (metadata_or md "document_title"
                                            "No summary available");
                         score := score_of node |})) as [rs Hrs].
        rewrite Hrs in H. discriminate.
      * intros (_ & n & r & [= <- _] & Hn). congruence.
    + split.
      * intros [= <-]. split; [reflexivity|]. now exists node, (retained rest).
      * intros (-> & _). reflexivity.
Qed.

(** X1.  Shaping raises exactly when the first retained node is an
    object without a [metadata] attribute, and what it raises is the
    read of the unassigned local [file_name]. *)
Theorem extract_results_raises_iff (response : Response) (e : exn) :
  extract_results response = Raised e <->
  e = UnboundLocalError "file_name" /\
  exists node rest,
    retained (default [] (response_source_nodes response)) = node :: rest /\
    nws_metadata node = None.
Proof.
  unfold extract_results.
  destruct (response_source_nodes response) as [nodes|]; simpl.
  - apply source_loop_unbound.
  - split; [discriminate|]. intros (_ & n & r & H & _). discriminate.
Qed.

Lemma source_loop_carried nodes : forall cur acc rs,
  source_loop nodes (locals_of cur) acc = Returned rs ->
  exists rs',
    rs = (acc ++ rs')%list /\
    Forall2
      (fun result '(node, cur') =>
         score result = score_of node /\
         exists md, cur' = Some md /\
           file_name result = Some (metadata_or md "file_name" "Unknown") /\
           summary result =
             Some (metadata_or md "document_title" "No summary available"))
      rs' (carried (retained nodes) cur).
Proof.
  induction nodes as [|node rest IH]; intros cur acc rs; simpl.
  - intros [= <-]. exists []. split; [now rewrite app_nil_r | constructor].
  - rewrite <- is_sub_question_text.
    destruct (is_sub_question node); simpl; [apply IH|].
    rewrite assign_metadata_locals, make_result_locals.
    set (cur' := match nws_metadata node with Some md => Some md | None => cur end).
    destruct cur' as [md|] eqn:Hc; [|discriminate].
    intros H. apply IH in H as (rs' & -> & HF).
    eexists (_ :: rs'). split.
    + unfold append. rewrite <- app_assoc. reflexivity.
    + constructor; [|exact HF]. simpl. split; [reflexivity|].
      exists md. auto.
Qed.

(** X2.  When shaping returns, there is one entry per retained node, in
    order; its score is that node's, and its file name and summary are
    read from the metadata of the nearest retained node, the node itself
    included, that has a metadata attribute. *)
Theorem extract_results_carried (response : Response) (rs : list SearchResult) :
  extract_results response = Returned rs ->
  Forall2
    (fun result '(node, cur) =>
       score result = score_of node /\
       exists md, cur = Some md /\
         file_name result = Some (metadata_or md "file_name" "Unknown") /\
         summary result =
           Some (metadata_or md "document_title" "No summary available"))
    rs (carried (retained (default [] (response_source_nodes response))) None).
Proof.
  unfold extract_results.
  destruct (response_source_nodes response) as [nodes|]; simpl.
  - change unbound with (locals_of None). intros H.
    apply source_loop_carried in H as (rs' & -> & HF). exact HF.
  - intros [= <-]. constructor.
Qed.

End ShapingLoop.

(** ** What the answer and the filter depend on *)

Section AnswerAndFilter.

Import PyStrFacts.

Lemma guardrail_never_degenerate raw : degenerate_answer (guardrail raw) = false.
Proof.
  rewrite guardrail_degenerate.
  destruct (degenerate_answer raw) eqn:E; [reflexivity | exact E].
Qed.

(** X4.  The answer of a search response is never empty, never blank
    and never the "empty response" sentinel in any letter case or
    padding: the guardrail, applied again, leaves it as it is. *)
Theorem search_answer_never_degenerate
    (w : World) (request : SearchRequest) (p p' : Proc) (resp : SearchResponse) :
  search w request p = (Ok200 resp, p') ->
  degenerate_answer (answer resp) = false /\
  all_space (answer resp) = false /\
  guardrail (answer resp) = answer resp.
Proof.
  intros H. apply search_ok in H as (_ & response & _ & _ & -> & _).
  pose proof (guardrail_never_degenerate (response_str response)) as Hd.
  split; [exact Hd|]. split.
  - unfold degenerate_answer in Hd.
    apply orb_false_iff in Hd as [Hd _]. now apply orb_false_iff in Hd as [_ Hd].
  - rewrite (guardrail_degenerate (guardrail _)). now rewrite Hd.
Qed.

Lemma lower_char_idempotent c : lower_char (lower_char c) = lower_char c.
Proof. destruct c as [[] [] [] [] [] [] [] []]; reflexivity. Qed.

Lemma lower_idempotent s : lower (lower s) = lower s.
Proof. induction s as [|c s IH]; simpl; [reflexivity|]. now rewrite lower_char_idempotent, IH. Qed.

Lemma lstrip_app_space ws s : all_space ws = true -> lstrip (ws ++ s) = lstrip s.
Proof.
  induction ws as [|c ws IH]; simpl; [reflexivity|].
  intros H. apply andb_true_iff in H as [Hc Hw]. rewrite Hc. now apply IH.
Qed.

Lemma rstrip_app_space s ws : all_space ws = true -> rstrip (s ++ ws) = rstrip s.
Proof.
  intros Hw. induction s as [|c s IH]; simpl.
  - now apply rstrip_empty.
  - now rewrite IH.
Qed.

Lemma lstrip_app_nonspace s t :
  lstrip s <> EmptyString -> lstrip (s ++ t) = lstrip s ++ t.
Proof.
  induction s as [|c s IH]; simpl; [congruence|].
  destruct (isspace c); [exact IH | reflexivity].
Qed.

(** Trimming ignores whitespace added on either side. *)
Lemma strip_padding ws1 s ws2 :
  all_space ws1 = true -> all_space ws2 = true ->
  strip (ws1 ++ s ++ ws2) = strip s.
Proof.
  intros H1 H2. unfold strip. rewrite lstrip_app_space by exact H1.
  destruct (lstrip s) as [|c r] eqn:E.
  - assert (Hs : all_space s = true).
    { rewrite <- all_space_lstrip, E. reflexivity. }
    apply rstrip_empty. rewrite all_space_lstrip.
    clear E. induction s as [|d s IH]; simpl in *; [exact H2|].
    apply andb_true_iff in Hs as [-> Hs]. now apply IH.
  - rewrite lstrip_app_nonspace by (rewrite E; discriminate).
    rewrite E. now apply rstrip_app_space.
Qed.

(** X16.  Whether a node is dropped as a decomposition artifact, and
    whether an answer is replaced by the fallback, depends only on the
    text once trimmed and lower-cased: whitespace added on either side
    and a change of letter case make no difference. *)
Theorem filter_and_guardrail_insensitive
    (ws1 ws2 s : string) (meta : option (gmap string string))
    (sc : option (option PrimFloat.float)) :
  all_space ws1 = true -> all_space ws2 = true ->
  is_sub_question {| nws_text := ws1 ++ s ++ ws2; nws_metadata := meta; nws_score := sc |}
  = is_sub_question {| nws_text := lower s; nws_metadata := meta; nws_score := sc |} /\
  is_empty_response (ws1 ++ s ++ ws2) = is_empty_response (lower s).
Proof.
  intros H1 H2. split.
  - unfold is_sub_question; simpl.
    rewrite lower_idempotent, <- !lower_strip. now rewrite strip_padding.
  - rewrite !is_empty_response_degenerate. unfold degenerate_answer, ci_equal.
    rewrite strip_padding by assumption.
    rewrite <- lower_strip, lower_idempotent.
    assert (Ha : all_space (ws1 ++ s ++ ws2) = all_space (lower s)).
    { rewrite <- !strip_eqb_empty, strip_padding by assumption.
      rewrite <- lower_strip. now destruct (strip s). }
    rewrite Ha.
    assert (He : forall t, all_space t = false -> String.eqb t "" = false).
    { intros t Ht. now destruct t. }
    destruct (all_space (lower s)) eqn:E.
    + now rewrite !orb_true_r.
    + rewrite !He; [reflexivity | exact E | now rewrite Ha].
Qed.

End AnswerAndFilter.

(** ** What a search does to the outside world *)

Ltac run_search :=
  unfold post_search, search, handler, search_body in *; run.

Ltac solve_in :=
  repeat match goal with
    | H : In _ _ |- _ => simpl in H
    | H : _ \/ _ |- _ => destruct H
    | H : False |- _ => destruct H
    | H : CallQuery _ _ = CallQuery _ _ |- _ => injection H as <- <-
    | H : CallQuery _ _ = _ |- _ => discriminate H
    | H : _ = CallQuery _ _ |- _ => discriminate H
    end.

Section SearchTrace.

Variable w : World.
Variable request : SearchRequest.

(** The calls a search adds to the log. *)
Lemma search_calls (p : Proc) :
  exists added,
    calls (snd (search w request p)) = (calls p ++ added)%list /\
    (length (List.filter is_query added) <= 1)%nat /\
    Forall (fun c => is_ingestion_call c = false) added /\
    forall e q, In (CallQuery e q) added ->
      q = query request /\
      exists ix, _index (models (snd (search w request p))) = Some ix /\
                 e = choose_engine w request ix.
Proof.
  destruct p as [[vs i] n cs]. run_search.
  destruct i as [ix|]; [|destruct vs as [v|]]; simpl;
    split_oracles; rewrite <- ?app_assoc; simpl.
  all: eexists; (split; [try reflexivity; symmetry; apply app_nil_r|]).
  all: simpl; (split; [lia|]).
  all: split; [repeat (apply List.Forall_cons; [reflexivity|]); apply List.Forall_nil|].
  all: intros qe q Hin; solve_in; eauto.
Qed.

(** X5.  A search asks its query engine at most once, with the query
    string of the request as it came and the engine chosen over the
    memoized index; it never makes any of the calls of the ingestion
    path. *)
Theorem search_queries_at_most_once (p : Proc) :
  exists added,
    calls (snd (search w request p)) = (calls p ++ added)%list /\
    (length (List.filter is_query added) <= 1)%nat /\
    Forall (fun c => is_ingestion_call c = false) added /\
    forall e q, In (CallQuery e q) added ->
      q = query request /\
      exists ix, _index (models (snd (search w request p))) = Some ix /\
                 e = choose_engine w request ix.
Proof. exact (search_calls p). Qed.

End SearchTrace.

(** ** Validation in front of the search handler *)

Lemma search_not_validation (w : World) (request : SearchRequest) (p : Proc) :
  fst (search w request p) <> RequestValidationError.
Proof.
  destruct p as [[vs i] n cs]. run_search.
  destruct i; [|destruct vs]; simpl; split_oracles; discriminate.
Qed.

(** X6.  The search endpoint rejects a body, leaving the process
    untouched, exactly when the body has no query or its
    similarity_top_k (10 when omitted) lies outside 1..50; the query
    text itself is not inspected, so an empty or blank query is let
    through. *)
Theorem post_search_validation (w : World) (b : SearchBody) (p : Proc) :
  post_search w b p = (RequestValidationError, p) <->
  body_query b = None \/
  ~ (1 <= default 10 (body_similarity_top_k b) <= 50).
Proof.
  unfold post_search, validate_SearchRequest, within.
  destruct (body_query b) as [q|]; [|split; auto].
  simpl.
  destruct (1 <=? default 10 (body_similarity_top_k b)) eqn:H1;
    destruct (default 10 (body_similarity_top_k b) <=? 50) eqn:H2; simpl;
    try (split; [intros _; right; lia | reflexivity]).
  split.
  - intros H.
    match type of H with
    | search ?w0 ?r0 ?p0 = _ => pose proof (search_not_validation w0 r0 p0) as Hn
    end.
    rewrite H in Hn. now contradiction Hn.
  - intros [H|H]; [discriminate | lia].
Qed.

(** X7.  Whatever query reaches an engine through the search endpoint
    is the query of the body, and every retrieval engine consulted for
    it, one in either mode, retrieves between 1 and 50 nodes: the
    number asked for in the body. *)
Theorem post_search_engine_depth (w : World) (b : SearchBody) (p : Proc) :
  exists added,
    calls (snd (post_search w b p)) = (calls p ++ added)%list /\
    forall e q, In (CallQuery e q) added ->
      body_query b = Some q /\
      length (base_engines e) = 1%nat /\
      Forall (fun be =>
                engine_similarity_top_k be = default 10 (body_similarity_top_k b) /\
                1 <= engine_similarity_top_k be <= 50)
             (base_engines e).
Proof.
  unfold post_search, validate_SearchRequest, within.
  destruct (body_query b) as [q0|];
    [|exists []; split; [symmetry; apply app_nil_r | intros ? ? []]].
  simpl.
  destruct (1 <=? default 10 (body_similarity_top_k b)) eqn:H1;
    destruct (default 10 (body_similarity_top_k b) <=? 50) eqn:H2; simpl;
    try (exists []; split; [symmetry; apply app_nil_r | intros ? ? []]).
  match goal with
  | |- context [search ?w0 ?r0 ?p0] =>
      destruct (search_calls w0 r0 p0) as (added & Hc & _ & _ & Hq)
  end.
  exists added. split; [exact Hc|].
  intros e q Hin. apply Hq in Hin as (-> & ix & _ & ->). simpl.
  split; [reflexivity|].
  unfold choose_engine; simpl.
  destruct (default false (body_use_sub_questions b)); simpl;
    (split; [reflexivity|]); repeat (apply List.Forall_cons || apply List.Forall_nil);
    simpl; lia.
Qed.

(** ** How the handlers fail *)

(** X8.  Both handlers answer with a body or with status 500; the detail of
    a failure starts with the handler's own prefix, and a body of the
    ingestion handler always says success. *)
Theorem handlers_report_500
    (w : World) (srequest : SearchRequest) (irequest : IngestionRequest) (p : Proc) :
  match fst (search w srequest p) with
  | Ok200 resp => resp_query resp = query srequest
  | HTTPException status detail =>
      status = 500 /\ String.prefix "Search failed: " detail = true
  | RequestValidationError => False
  end /\
  match fst (ingest_documents w irequest p) with
  | Ok200 resp => success resp = true
  | HTTPException status detail =>
      status = 500 /\ String.prefix "Ingestion failed: " detail = true
  | RequestValidationError => False
  end.
Proof.
  split.
  - destruct p as [[vs i] n cs]. run_search.
    destruct i; [|destruct vs]; simpl; split_oracles; simpl;
      try reflexivity; (split; [reflexivity|]);
      match goal with |- context [exn_str ?e] => now destruct (exn_str e) end.
  - run_ingest. split_oracles; simpl; try reflexivity;
      (split; [reflexivity|]);
      match goal with |- context [exn_str ?e] => now destruct (exn_str e) end.
Qed.

(** ** Ingestion and the outside world *)

Section IngestionTrace.

Variable w : World.
Variable request : IngestionRequest.

(** The calls an ingestion adds to the log, stage by stage. *)
Lemma ingest_calls (p : Proc) :
  exists added,
    calls (snd (ingest_documents w request p)) = (calls p ++ added)%list /\
    Forall (fun c => is_construction c = false /\ is_query c = false) added /\
    (forall cs co, In (CallSentenceSplitter cs co) added ->
       cs = chunk_size request /\ co = chunk_overlap request) /\
    (forall ts docs, In (CallPipelineRun ts docs) added ->
       ts = build_transformations request /\
       w_load_data w (input_dir request) FILE_EXTRACTOR true = Returned docs /\
       w_SentenceSplitter w (chunk_size request) (chunk_overlap request) = None) /\
    (forall db dir nodes, In (CallBuildIndex db dir nodes) added ->
       db = DB_PATH (w_config w) /\ dir = PERSIST_DIR (w_config w) /\
       exists docs,
         w_load_data w (input_dir request) FILE_EXTRACTOR true = Returned docs /\
         w_SentenceSplitter w (chunk_size request) (chunk_overlap request) = None /\
         w_pipeline_run w (build_transformations request) docs = Returned nodes) /\
    (exists rest,
       added = CallLoadData (input_dir request) FILE_EXTRACTOR true :: rest).
Proof.
  run_ingest.
  destruct (w_load_data w (input_dir request) FILE_EXTRACTOR true)
    as [docs|e1] eqn:Hl; simpl.
  2:{ eexists. split; [reflexivity|].
      split; [repeat (apply List.Forall_cons; [now split|]); apply List.Forall_nil|].
      repeat split; intros; simpl in *; try (now eexists); intuition discriminate. }
  destruct (w_SentenceSplitter w (chunk_size request) (chunk_overlap request))
    as [e2|] eqn:Hs; simpl.
  { rewrite <- !app_assoc. eexists. split; [reflexivity|].
    split; [repeat (apply List.Forall_cons; [now split|]); apply List.Forall_nil|].
    repeat split; intros; simpl in *; try (now eexists); intuition (try discriminate); congruence. }
  destruct (w_pipeline_run w (build_transformations request) docs)
    as [nodes|e3] eqn:Hp; simpl.
  2:{ rewrite <- !app_assoc. eexists. split; [reflexivity|].
      split; [repeat (apply List.Forall_cons; [now split|]); apply List.Forall_nil|].
      repeat split; intros; simpl in *; try (now eexists); intuition (try discriminate); congruence. }
  destruct (w_build_index w (DB_PATH (w_config w)) (PERSIST_DIR (w_config w)) nodes)
    as [e4|] eqn:Hb; simpl;
    rewrite <- !app_assoc; (eexists; split; [reflexivity|]);
    (split; [repeat (apply List.Forall_cons; [now split|]); apply List.Forall_nil|]);
    repeat split; intros; simpl in *; try (now eexists);
    intuition (try discriminate); try congruence;
    match goal with
    | H : CallBuildIndex _ _ _ = CallBuildIndex _ _ _ |- _ =>
        injection H as <- <- <-; exists docs; auto
    end.
Qed.

(** X9.  The store is written only after loading the documents,
    constructing the splitter and running the whole chain have all
    succeeded, at the configured place and with exactly the nodes the
    chain returned; an ingestion never opens the store through the
    accessor and never queries. *)
Theorem ingest_writes_after_pipeline (p : Proc) :
  exists added,
    calls (snd (ingest_documents w request p)) = (calls p ++ added)%list /\
    Forall (fun c => is_construction c = false /\ is_query c = false) added /\
    forall db dir nodes, In (CallBuildIndex db dir nodes) added ->
      db = DB_PATH (w_config w) /\ dir = PERSIST_DIR (w_config w) /\
      exists docs,
        w_load_data w (input_dir request) FILE_EXTRACTOR true = Returned docs /\
        w_SentenceSplitter w (chunk_size request) (chunk_overlap request) = None /\
        w_pipeline_run w (build_transformations request) docs = Returned nodes.
Proof.
  destruct (ingest_calls p) as (added & Hc & Hf & _ & _ & Hb & _).
  exists added. auto.
Qed.

Lemma ingest_failure_keeps_memo_aux (p p' : Proc) (status : Z) (detail : string) :
  ingest_documents w request p = (HTTPException status detail, p') ->
  models p' = models p /\ next_ref p' = next_ref p.
Proof.
  run_ingest. split_oracles; intros [= <- <- <-]; simpl; auto.
Qed.

(** X10.  An ingestion that fails, at whatever stage, leaves the memoized
    handles and the reference counter as they were: the accessor is not
    invalidated. *)
Theorem ingest_failure_keeps_memo (p p' : Proc) (status : Z) (detail : string) :
  ingest_documents w request p = (HTTPException status detail, p') ->
  models p' = models p /\ next_ref p' = next_ref p.
Proof. apply ingest_failure_keeps_memo_aux. Qed.

(** X11.  The counts of a success response are the number of documents the
    loader returned and the number of nodes the chain returned, and
    those nodes are the ones written to the store. *)
Theorem ingest_reports_counts (p p' : Proc) (resp : IngestionResponse) :
  ingest_documents w request p = (Ok200 resp, p') ->
  exists docs nodes,
    w_load_data w (input_dir request) FILE_EXTRACTOR true = Returned docs /\
    w_pipeline_run w (build_transformations request) docs = Returned nodes /\
    documents_processed resp = Z.of_nat (length docs) /\
    nodes_created resp = Z.of_nat (length nodes) /\
    0 <= documents_processed resp /\ 0 <= nodes_created resp /\
    In (CallBuildIndex (DB_PATH (w_config w)) (PERSIST_DIR (w_config w)) nodes)
       (calls p').
Proof.
  intros H. pose proof H as H0.
  apply ingest_documents_ok in H as (docs & nodes & Hl & Hp & -> & _ & _).
  exists docs, nodes. simpl. repeat (split; [auto; lia|]).
  revert H0. run_ingest. rewrite Hl; simpl.
  destruct (w_SentenceSplitter w _ _); simpl; [discriminate|].
  rewrite Hp; simpl.
  destruct (w_build_index w _ _ nodes); simpl; [discriminate|].
  intros [= <-]. simpl. apply in_or_app. right. now left.
Qed.

End IngestionTrace.

(** The chain built is the chain expected. *)
Lemma build_transformations_expected (request : IngestionRequest) :
  build_transformations request = expected_chain request.
Proof.
  unfold build_transformations, expected_chain, append.
  destruct (extract_title request), (extract_qa request),
    (extract_keywords request), (extract_summary request); reflexivity.
Qed.

(** X12.  The ingestion endpoint rejects a body, making no external
    call and leaving the process untouched, exactly when its chunk size
    (512 when omitted) lies outside 100..2000 or its overlap (128 when
    omitted) lies outside 0..500.  Every other body reaches the handler,
    whose first call loads the documents; the splitter is then only
    ever constructed with the chunk size and overlap of the body, which
    lie within the bounds, and every chain that is run starts with that
    splitter. *)
Theorem post_ingest_splitter_bounds (w : World) (b : IngestionBody) (p : Proc) :
  let size := default 512 (body_chunk_size b) in
  let overlap := default 128 (body_chunk_overlap b) in
  let in_bounds := 100 <= size <= 2000 /\ 0 <= overlap <= 500 in
  (post_ingest w b p = (RequestValidationError, p) <-> ~ in_bounds) /\
  exists added,
    calls (snd (post_ingest w b p)) = (calls p ++ added)%list /\
    (~ in_bounds -> added = []) /\
    (in_bounds ->
     exists rest,
       added = CallLoadData (default "./policies" (body_input_dir b))
                 FILE_EXTRACTOR true :: rest) /\
    (forall cs co, In (CallSentenceSplitter cs co) added ->
       cs = size /\ co = overlap /\ in_bounds) /\
    (forall ts docs, In (CallPipelineRun ts docs) added ->
       (exists rest, ts = SentenceSplitter size overlap :: rest) /\ in_bounds).
Proof.
  intros size overlap in_bounds. subst in_bounds.
  unfold post_ingest, validate_IngestionRequest, within. simpl.
  fold size overlap.
  destruct (100 <=? size) eqn:H1; destruct (size <=? 2000) eqn:H2;
    destruct (0 <=? overlap) eqn:H3; destruct (overlap <=? 500) eqn:H4; simpl;
    try (split; [split; [lia | reflexivity]|];
         exists []; split; [symmetry; apply app_nil_r|];
         split; [reflexivity|]; split; [lia|];
         split; intros; simpl in *; contradiction).
  match goal with
  | |- context [ingest_documents ?w0 ?r0 ?p0] =>
      pose proof (ingest_documents_not_validation w0 r0 p0) as Hn;
      destruct (ingest_calls w0 r0 p0) as (added & Hc & _ & Hs & Hp & _ & Hl)
  end.
  simpl in *. split.
  - split; [|lia]. intros H. rewrite H in Hn. now contradiction Hn.
  - exists added. split; [exact Hc|].
    split; [lia|]. split; [intros _; exact Hl|]. split.
    + intros cs co Hin. apply Hs in Hin as [-> ->]. repeat split; lia.
    + intros ts docs Hin. apply Hp in Hin as (-> & _ & _).
      rewrite build_transformations_expected.
      split; [eexists; reflexivity | lia].
Qed.

(** ** The accessor across requests *)

(** A search on an initialized memo changes neither the memo nor the
    reference counter and constructs nothing. *)
Lemma search_on_initialized (w : World) (request : SearchRequest) (p : Proc)
    (ix : VectorStoreIndex) :
  _index (models p) = Some ix ->
  models (snd (search w request p)) = models p /\
  next_ref (snd (search w request p)) = next_ref p /\
  exists added,
    calls (snd (search w request p)) = (calls p ++ added)%list /\
    Forall (fun c => is_construction c = false) added.
Proof.
  destruct p as [[vs i] n cs]. simpl. intros ->. run_search.
  split_oracles; rewrite <- ?app_assoc; simpl;
    (split; [reflexivity|]); (split; [reflexivity|]);
    eexists; (split; [reflexivity|]);
    repeat (apply List.Forall_cons; [reflexivity|]); apply List.Forall_nil.
Qed.

Lemma serve_search_on_initialized (r : Served) (p : Proc) (ix : VectorStoreIndex) :
  is_search r -> _index (models p) = Some ix ->
  models (serve r p) = models p /\
  next_ref (serve r p) = next_ref p /\
  exists added,
    calls (serve r p) = (calls p ++ added)%list /\
    Forall (fun c => is_construction c = false) added.
Proof.
  destruct r as [w b | w b]; simpl; [intros _ Hi | contradiction].
  unfold post_search. destruct (validate_SearchRequest b) as [request|].
  - now apply (search_on_initialized w request p ix).
  - simpl. repeat (split; [reflexivity|]).
    exists []. split; [symmetry; apply app_nil_r | apply List.Forall_nil].
Qed.

(** X13.  Once the index is memoized, any number of search requests, valid
    or not, succeeding or failing, in whatever state of the outside
    world, leave the memo as it is and never open the store or build an
    index again. *)
Theorem searches_reuse_handle (rs : list Served) (p : Proc) (ix : VectorStoreIndex) :
  Forall is_search rs ->
  _index (models p) = Some ix ->
  models (serve_all rs p) = models p /\
  next_ref (serve_all rs p) = next_ref p /\
  exists added,
    calls (serve_all rs p) = (calls p ++ added)%list /\
    Forall (fun c => is_construction c = false) added.
Proof.
  unfold serve_all. intros Hs. revert p.
  induction Hs as [|r rs Hr _ IH]; intros p Hi; simpl.
  - repeat (split; [reflexivity|]).
    exists []. split; [symmetry; apply app_nil_r | apply List.Forall_nil].
  - destruct (serve_search_on_initialized r p ix Hr Hi)
      as (Hm & Hn & a1 & Hc1 & Hf1).
    assert (Hi' : _index (models (serve r p)) = Some ix) by now rewrite Hm.
    destruct (IH _ Hi') as (Hm' & Hn' & a2 & Hc2 & Hf2).
    split; [congruence|]. split; [congruence|].
    exists (a1 ++ a2)%list. split.
    + rewrite Hc2, Hc1. now rewrite <- app_assoc.
    + apply List.Forall_app. now split.
Qed.

(** X14.  A memoized store handle is never opened again: with it in place
    [get_index] makes no [from_local] call, and an index it has to build
    is built over that very handle. *)
Theorem memoized_store_not_reopened (w : World) (p : Proc) (vs : DuckDBVectorStore) :
  _vector_store (models p) = Some vs ->
  exists added,
    calls (snd (get_index w p)) = (calls p ++ added)%list /\
    Forall (fun c => match c with CallFromLocal _ => False | _ => True end) added /\
    _vector_store (models (snd (get_index w p))) = Some vs /\
    (_index (models p) = None ->
     forall ix, fst (get_index w p) = Returned ix -> index_store ix = vs).
Proof.
  destruct p as [[v i] n cs]. simpl. intros ->. run.
  destruct i as [ix0|]; simpl.
  - exists []. split; [symmetry; apply app_nil_r|].
    split; [apply List.Forall_nil|]. split; [reflexivity|]. discriminate.
  - split_oracles; eexists; (split; [reflexivity|]);
      (split; [repeat (apply List.Forall_cons; [exact I|]); apply List.Forall_nil|]);
      (split; [reflexivity|]); intros _ ix [=]; subst; reflexivity.
Qed.

(** X15.  [get_vector_store] memoizes: what a call returns is what every
    later call returns, with the process left as it is; a call that
    raises leaves both globals as they were. *)
Theorem get_vector_store_idempotent (w1 w2 : World) (p : Proc) :
  match get_vector_store w1 p with
  | (Returned vs, p1) =>
      _vector_store (models p1) = Some vs /\
      _index (models p1) = _index (models p) /\
      get_vector_store w2 p1 = (Returned vs, p1)
  | (Raised _, p1) => models p1 = models p
  end.
Proof.
  destruct p as [[v i] n cs]. run.
  destruct v as [vs|]; simpl.
  - auto.
  - split_oracles; auto.
Qed.


(** X18.  The request the chat front end sends: none for a question that is
    blank, and otherwise, for a retrieval depth within the slider's
    range 1..50, a body that passes validation and reaches the search
    handler with the question as typed, not trimmed. *)
Theorem search_rag_request (w : World) (q : string) (k : Z) (sub : bool) (p : Proc) :
  (search_rag_payload q k sub = None <-> all_space q = true) /\
  (forall b, search_rag_payload q k sub = Some b ->
     1 <= k <= 50 ->
     post_search w b p
     = search w {| query := q; similarity_top_k := k; use_sub_questions := sub |} p).
Proof.
  unfold search_rag_payload. rewrite PyStrFacts.truthy_eqb, PyStrFacts.strip_eqb_empty.
  destruct (all_space q); split; try (split; congruence); try discriminate.
  intros b [= <-] Hk. unfold post_search, validate_SearchRequest, within. simpl.
  destruct (1 <=? k) eqn:H1; destruct (k <=? 50) eqn:H2; simpl; try lia.
  reflexivity.
Qed.

(** ** The further properties at work *)

(** Shaping over a node with metadata followed by a bare node object:
    the second entry repeats the first node's file name and summary. *)
Lemma extract_results_carried_witness :
  Forall2
    (fun result '(node, cur) =>
       score result = score_of node /\
       exists md, cur = Some md /\
         file_name result = Some (metadata_or md "file_name" "Unknown") /\
         summary result =
           Some (metadata_or md "document_title" "No summary available"))
    [ {| file_name := Some "pets.pdf"; summary := Some "Pet policy";
         score := Some 0.5%float |};
      {| file_name := Some "pets.pdf"; summary := Some "Pet policy";
         score := None |} ]
    (carried (retained (default [] (response_source_nodes
                (Scenario.respond "Seats." [Scenario.titled; Scenario.bare]))))
       None).
Proof.
  apply (extract_results_carried
           (Scenario.respond "Seats." [Scenario.titled; Scenario.bare])).
  vm_compute. reflexivity.
Defined.

(** The engine emits the sentinel; the answer returned is not degenerate. *)
Lemma search_answer_never_degenerate_witness :
  degenerate_answer (answer Scenario.sentinel_response) = false /\
  all_space (answer Scenario.sentinel_response) = false /\
  guardrail (answer Scenario.sentinel_response) = answer Scenario.sentinel_response.
Proof.
  apply (search_answer_never_degenerate Scenario.sentinel_world Scenario.request
           fresh_proc
           (snd (search Scenario.sentinel_world Scenario.request fresh_proc))).
  vm_compute. reflexivity.
Defined.

(** A padded, capitalized artifact text and a padded sentinel. *)
Lemma filter_and_guardrail_insensitive_witness :
  is_sub_question {| nws_text := "  " ++ "Sub Question: cats?" ++ nl;
                     nws_metadata := None; nws_score := None |}
  = is_sub_question {| nws_text := lower "Sub Question: cats?";
                       nws_metadata := None; nws_score := None |} /\
  is_empty_response ("  " ++ "Sub Question: cats?" ++ nl)
  = is_empty_response (lower "Sub Question: cats?").
Proof.
  apply (filter_and_guardrail_insensitive "  " nl "Sub Question: cats?" None None);
    reflexivity.
Defined.

(** An ingestion from a missing directory, on an initialized memo. *)
Lemma ingest_failure_keeps_memo_witness :
  let p := snd (get_index Scenario.sentinel_world fresh_proc) in
  let p' := snd (ingest_documents Scenario.missing_dir_world
                   Scenario.ingestion_request p) in
  is_Some (_index (models p)) /\
  (models p' = models p /\ next_ref p' = next_ref p).
Proof.
  split; [vm_compute; eauto|].
  apply (ingest_failure_keeps_memo Scenario.missing_dir_world
           Scenario.ingestion_request
           (snd (get_index Scenario.sentinel_world fresh_proc)) _ 500
           "Ingestion failed: Directory ./nowhere does not exist.").
  vm_compute. reflexivity.
Defined.

(** One document in, one node out. *)
Lemma ingest_reports_counts_witness :
  let w := Scenario.world (Scenario.respond "" []) [Scenario.one_doc] in
  let resp := {| success := true;
                 message := "Documents ingested and indexed successfully";
                 documents_processed := 1; nodes_created := 1 |} in
  let p' := snd (ingest_documents w Scenario.ingestion_request fresh_proc) in
  exists docs nodes,
    w_load_data w (input_dir Scenario.ingestion_request) FILE_EXTRACTOR true
    = Returned docs /\
    w_pipeline_run w (build_transformations Scenario.ingestion_request) docs
    = Returned nodes /\
    documents_processed resp = Z.of_nat (length docs) /\
    nodes_created resp = Z.of_nat (length nodes) /\
    0 <= documents_processed resp /\ 0 <= nodes_created resp /\
    In (CallBuildIndex (DB_PATH (w_config w)) (PERSIST_DIR (w_config w)) nodes)
       (calls p').
Proof.
  apply (ingest_reports_counts
           (Scenario.world (Scenario.respond "" []) [Scenario.one_doc])
           Scenario.ingestion_request fresh_proc).
  vm_compute. reflexivity.
Defined.

(** Three searches on an initialized memo: one fails in the engine, one
    is rejected by validation, one succeeds. *)
Lemma searches_reuse_handle_witness :
  let p := snd (get_index Scenario.sentinel_world fresh_proc) in
  let rs := [ ServedSearch Scenario.failing_query_world
                (Scenario.search_body_of "Can I bring a pet?" 5 true);
              ServedSearch Scenario.sentinel_world
                (Scenario.search_body_of "Can I bring a pet?" 51 false);
              ServedSearch Scenario.sentinel_world
                (Scenario.search_body_of "Can I bring a pet?" 5 false) ] in
  models (serve_all rs p) = models p /\
  next_ref (serve_all rs p) = next_ref p /\
  exists added,
    calls (serve_all rs p) = (calls p ++ added)%list /\
    Forall (fun c => is_construction c = false) added.
Proof.
  apply (searches_reuse_handle _ _
           {| index_ref := 1%nat;
              index_store := {| store_ref := 0%nat;
                                store_path := "./persist/pg.duckdb" |} |}).
  - repeat (apply List.Forall_cons; [exact I|]). apply List.Forall_nil.
  - vm_compute. reflexivity.
Defined.

(** The store opened, the index could not be built; the next call
    builds the index over the store that is already open. *)
Lemma memoized_store_not_reopened_witness :
  let p := snd (get_index Scenario.no_index_world fresh_proc) in
  let vs := {| store_ref := 0%nat; store_path := "./persist/pg.duckdb" |} in
  _index (models p) = None /\
  exists added,
    calls (snd (get_index Scenario.sentinel_world p)) = (calls p ++ added)%list /\
    Forall (fun c => match c with CallFromLocal _ => False | _ => True end) added /\
    _vector_store (models (snd (get_index Scenario.sentinel_world p))) = Some vs /\
    (_index (models p) = None ->
     forall ix, fst (get_index Scenario.sentinel_world p) = Returned ix ->
                index_store ix = vs).
Proof.
  split; [vm_compute; reflexivity|].
  apply (memoized_store_not_reopened Scenario.sentinel_world
           (snd (get_index Scenario.no_index_world fresh_proc))).
  vm_compute. reflexivity.
Defined.

(** ** The store that is written and the store that is opened *)

Section WrittenAndOpened.

Import Store.

Lemma string_app_cancel (a x y : string) : a ++ x = a ++ y -> x = y.
Proof. induction a as [|c a IH]; simpl; [trivial|]. intros [= H]. now apply IH. Qed.

Lemma string_not_own_tail (c : ascii) (s : string) : s <> String c s.
Proof.
  intros H. apply (f_equal String.length) in H. simpl in H. lia.
Qed.

(** For a relative database name, the path the accessor opens is the
    path at which the ingestion persists exactly when PERSIST_DIR is
    empty or ends with a separator. *)
Lemma opened_path_is_written_path (cfg : Config) :
  startswith (DB_PATH cfg) "/" = false ->
  (opened_path cfg = written_path (PERSIST_DIR cfg) (DB_PATH cfg) <->
   PERSIST_DIR cfg = "" \/ ends_with_slash (PERSIST_DIR cfg) = true).
Proof.
  unfold opened_path, written_path. intros ->.
  destruct (PERSIST_DIR cfg) as [|c d]; cbn [truthy negb orb]; [split; auto|].
  destruct (ends_with_slash (String c d)) eqn:Hs; [split; auto|].
  split; [|intros [H|H]; discriminate].
  intros H. apply string_app_cancel in H. simpl in H.
  exfalso. revert H. apply string_not_own_tail.
Qed.

(** With the configuration used when the environment sets nothing, the
    two paths are the same. *)
Lemma default_opened_path_is_written_path :
  opened_path default_config
  = written_path (PERSIST_DIR default_config) (DB_PATH default_config).
Proof. reflexivity. Qed.

(** C8.  With PERSIST_DIR set to "./persist" an ingestion succeeds and
    clears both globals, having written the store named "pg.duckdb" in
    the directory "./persist"; the next [get_index], in whatever state
    of the outside world, opens "./persistpg.duckdb", and the handle it
    returns is over that path, which is not the path of the store just
    written. *)
Theorem reopened_store_is_not_written_store :
  exists resp p' nodes ix p'',
    ingest_documents Scenario.unslashed_world Scenario.ingestion_request fresh_proc
    = (Ok200 resp, p') /\
    models p' = {| _vector_store := None; _index := None |} /\
    In (CallBuildIndex "pg.duckdb" "./persist" nodes) (calls p') /\
    written_path "./persist" "pg.duckdb" = "./persist/pg.duckdb" /\
    (forall w2, w_config w2 = Scenario.unslashed_config ->
       exists rest,
         calls (snd (get_index w2 p'))
         = (calls p' ++ CallFromLocal "./persistpg.duckdb" :: rest)%list) /\
    get_index Scenario.unslashed_world p' = (Returned ix, p'') /\
    _index (models p'') = Some ix /\
    store_path (index_store ix) = "./persistpg.duckdb" /\
    store_path (index_store ix) <> written_path "./persist" "pg.duckdb".
Proof.
  eexists _, _, _, _, _.
  split; [vm_compute; reflexivity|].
  split; [reflexivity|].
  split; [simpl; auto 10|].
  split; [reflexivity|].
  split.
  { intros w2 Hc. run. rewrite Hc. simpl.
    split_oracles; rewrite <- ?app_assoc; simpl; now eexists. }
  split; [vm_compute; reflexivity|].
  split; [reflexivity|].
  split; [reflexivity|].
  vm_compute. discriminate.
Qed.

End WrittenAndOpened.
